(** * PODIOWriter module of Allpix Squared: a model of
      src/modules/PODIOWriter/PODIOWriterModule.{hpp,cpp}

    The module has four entry points, called by the framework in this order:
    the constructor, [initialize], [run] once per event, and [finalize].
    Each is transcribed below as a function over an explicit module state
    ([PODIOWriterModule], the data members) and an explicit environment
    ([Env]: the files on disk and the log).  A C++ exception is a value of
    [exception] returned on the left of a sum.

    Doubles are IEEE binary64 numbers ([float]); text written to a stream is
    a list of [token]s, one per character, with the numbers handed to
    [operator<<] kept as numbers. *)

From Stdlib Require Import ZArith String Ascii List Floats.
From stdpp Require Import gmap strings list.

Local Open Scope Z_scope.

(* Decimal literals such as 0.05 stand for the nearest double. *)
Set Warnings "-inexact-float".

(** ** Exceptions and results *)

Inductive exception : Type :=
| MissingKeyError (key : string)      (* Configuration::get on an absent key *)
| InvalidValueError (key : string)    (* Configuration::get at the wrong type *)
| ModuleError (what : string)         (* thrown by the module itself *)
| NullDereference.                    (* [->] on an empty smart pointer *)

Definition result (A : Type) : Type := exception + A.

Definition ok {A : Type} (a : A) : result A := inr a.
Definition throw {A : Type} (e : exception) : result A := inl e.

Definition bind {A B : Type} (m : result A) (k : A -> result B) : result B :=
  match m with
  | inl e => inl e
  | inr a => k a
  end.

Notation "x <- m ;; k" := (bind m (fun x => k))
  (at level 100, m at next level, right associativity).

Definition succeeds {A : Type} (m : result A) : bool :=
  match m with
  | inl _ => false
  | inr _ => true
  end.

(** [p.get()] / [p->] on a smart pointer member. *)
Definition deref {A : Type} (p : option A) : result A :=
  match p with
  | Some a => ok a
  | None => throw NullDereference
  end.

(** ** Text written to a stream *)

Inductive token : Type :=
| Chr (c : ascii)                         (* one character of a string operand *)
| Num (z : Z)                             (* an integer operand *)
| Quantity (x : float) (unit : string).   (* the operand Units::convert(x, unit) *)

Fixpoint str (s : string) : list token :=
  match s with
  | EmptyString => []
  | String c s' => Chr c :: str s'
  end.

(** The characters a C++ literal escapes. *)
Definition dq : string := String "034"%char EmptyString.
Definition tab : string := String "009"%char EmptyString.
Definition endl : list token := [Chr "010"%char].

(** ** Reading an XML attribute back from written text

    The value of an attribute called [name] is what stands between [name=]
    followed by a double quote (at the start of the text or after a blank)
    and the next double quote.  [attribute name text] is the value of the
    first one. *)

Definition is_blank (t : token) : bool :=
  match t with
  | Chr c => orb (Ascii.eqb c " "%char) (orb (Ascii.eqb c "009"%char) (Ascii.eqb c "010"%char))
  | _ => false
  end.

Fixpoint strip_prefix (p : string) (text : list token) : option (list token) :=
  match p with
  | EmptyString => Some text
  | String c p' =>
      match text with
      | Chr c' :: text' => if Ascii.eqb c c' then strip_prefix p' text' else None
      | _ => None
      end
  end.

Fixpoint until_quote (text : list token) : option (list token) :=
  match text with
  | [] => None
  | Chr c :: text' =>
      if Ascii.eqb c "034"%char then Some []
      else match until_quote text' with
           | Some v => Some (Chr c :: v)
           | None => None
           end
  | t :: text' =>
      match until_quote text' with
      | Some v => Some (t :: v)
      | None => None
      end
  end.

Fixpoint attributes_from (name : string) (after_blank : bool) (text : list token)
  : list (list token) :=
  match text with
  | [] => []
  | t :: text' =>
      let later := attributes_from name (is_blank t) text' in
      match (if after_blank then strip_prefix (name +:+ "=" +:+ dq) text else None) with
      | Some rest =>
          match until_quote rest with
          | Some v => v :: later
          | None => later
          end
      | None => later
      end
  end.

(** Every value of the attribute [name], in the order of the text. *)
Definition attributes (name : string) (text : list token) : list (list token) :=
  attributes_from name true text.

Definition attribute (name : string) (text : list token) : option (list token) :=
  head (attributes name text).

(** [reads text pairs]: every attribute named in [pairs] has, at its first
    occurrence in [text], the value paired with it. *)
Definition reads (text : list token) (pairs : list (string * list token)) : Prop :=
  Forall (fun p => attribute p.1 text = Some p.2) pairs.

(** [elements tag text]: for every element opened with [<tag] and a blank,
    the tokens from that blank up to the next [>]. *)
Fixpoint until_gt (text : list token) : list token :=
  match text with
  | [] => []
  | Chr c :: text' => if Ascii.eqb c ">"%char then [] else Chr c :: until_gt text'
  | t :: text' => t :: until_gt text'
  end.

Fixpoint elements (tag : string) (text : list token) : list (list token) :=
  match text with
  | [] => []
  | t :: text' =>
      match strip_prefix ("<" +:+ tag) text with
      | Some (b :: rest) =>
          if is_blank b then until_gt (b :: rest) :: elements tag text'
          else elements tag text'
      | _ => elements tag text'
      end
  end.

(** ** The framework's configuration (core/config/Configuration.hpp)

    The class is not part of the module's sources.  A configuration maps
    keys to values; [get<T>] raises on an absent key or on a value of
    another type, [has] tests presence and [setDefault] writes a key only
    when it is absent. *)

Inductive ConfigValue : Type :=
| CfgInt (z : Z)
| CfgBool (b : bool)
| CfgString (s : string).

Abbreviation Configuration := (gmap string ConfigValue).

Definition has (key : string) (config : Configuration) : bool :=
  bool_decide (is_Some (config !! key)).

Definition setDefault (key : string) (value : string) (config : Configuration)
  : Configuration :=
  if has key config then config else <[key := CfgString value]> config.

Definition get_int (key : string) (config : Configuration) : result Z :=
  match config !! key with
  | None => throw (MissingKeyError key)
  | Some (CfgInt z) => ok z
  | Some _ => throw (InvalidValueError key)
  end.

Definition get_bool (key : string) (config : Configuration) : result bool :=
  match config !! key with
  | None => throw (MissingKeyError key)
  | Some (CfgBool b) => ok b
  | Some _ => throw (InvalidValueError key)
  end.

Definition get_string (key : string) (config : Configuration) : result string :=
  match config !! key with
  | None => throw (MissingKeyError key)
  | Some (CfgString s) => ok s
  | Some _ => throw (InvalidValueError key)
  end.

(** ** The geometry (core/geometry), read only *)

Record XYZVector : Type := { vx : float; vy : float; vz : float }.
Abbreviation XYZPoint := XYZVector.

(** A 3x3 rotation matrix, row by row. *)
Record Rotation3D : Type := {
  xx : float; xy : float; xz : float;
  yx : float; yy : float; yz : float;
  zx : float; zy : float; zz : float
}.

Record DetectorModel : Type := {
  getNPixels : Z * Z;             (* unsigned pixel counts in x and y *)
  getPixelSize : float * float;   (* pitch in x and y *)
  getSize : XYZVector;            (* full extent of the assembly *)
  getSensorSize : XYZVector       (* extent of the sensor *)
}.

Record Detector : Type := {
  getName : string;
  getType : string;
  getPosition : XYZPoint;
  getOrientation : Rotation3D;
  getModel : DetectorModel
}.

(** Modelled from the spec: the enumeration is declared by the geometry
    manager, outside the module's sources.  The module names [NONE] and
    [CONSTANT]; the spec speaks of "any other field representation", which
    is [OTHER] here. *)
Inductive MagneticFieldType : Type := NONE | CONSTANT | OTHER.

Record GeometryManager : Type := {
  getDetectors : list Detector;
  getMagneticFieldType : MagneticFieldType;
  getMagneticField : XYZPoint -> XYZVector
}.

(** ** Pixel hits and events (objects/PixelHit.hpp, core/module/Event.hpp) *)

Record PixelHit : Type := {
  hit_x : Z;
  hit_y : Z;
  hit_signal : float
}.

Record PixelHitMessage : Type := {
  msg_detector : string;       (* name of the detector the hits belong to *)
  msg_data : list PixelHit
}.

Record Event : Type := {
  number : Z;                           (* uint64_t *)
  messages : list PixelHitMessage       (* what was dispatched for this event *)
}.

(** The messenger hands over the messages dispatched for the event. *)
Record Messenger : Type := { messenger_id : Z }.

Definition fetchMultiMessage (m : Messenger) (event : Event) : list PixelHitMessage :=
  messages event.

(** ** The LCIO objects the module creates (external library)

    Only what the module calls is modelled: a writer records the file it
    was opened on, the run headers and events handed to it and whether it
    was closed; a collection records its type, its parameters and its
    elements. *)

Inductive LCIOType : Type := TRACKERDATA | TRACKERPULSE | SIMTRACKERHIT | MCPARTICLE.

Record TrackerDataImpl : Type := {
  cellID0 : Z;
  cellID1 : Z;
  chargeValues : list float
}.

Record LCCollectionVec : Type := {
  col_type : LCIOType;
  col_parameters : list (string * string);
  col_elements : list TrackerDataImpl
}.

Definition new_LCCollectionVec (t : LCIOType) : LCCollectionVec :=
  {| col_type := t; col_parameters := []; col_elements := [] |}.

(** A cell-ID encoder is bound to a collection (here: its index in
    [output_col_vec]); constructing one stores the encoding string in the
    parameters of that collection. *)
Record CellIDEncoder : Type := {
  enc_encoding : string;
  enc_collection : nat
}.

Definition bind_encoding (encoding : string) (col : LCCollectionVec) : LCCollectionVec :=
  {| col_type := col_type col;
     col_parameters := col_parameters col ++ [("CellIDEncoding", encoding)];
     col_elements := col_elements col |}.

Record LCRunHeaderImpl : Type := {
  hdr_runNumber : Z;
  hdr_detectorName : string
}.

Record LCEventImpl : Type := {
  evt_runNumber : Z;
  evt_eventNumber : Z;
  evt_parameters : list (string * Z);
  evt_collections : list (string * LCCollectionVec)
}.

Definition new_LCEventImpl : LCEventImpl :=
  {| evt_runNumber := 0; evt_eventNumber := 0; evt_parameters := []; evt_collections := [] |}.

Definition setRunNumber (n : Z) (e : LCEventImpl) : LCEventImpl :=
  {| evt_runNumber := n; evt_eventNumber := evt_eventNumber e;
     evt_parameters := evt_parameters e; evt_collections := evt_collections e |}.

Definition setEventNumber (n : Z) (e : LCEventImpl) : LCEventImpl :=
  {| evt_runNumber := evt_runNumber e; evt_eventNumber := n;
     evt_parameters := evt_parameters e; evt_collections := evt_collections e |}.

Definition setValue (key : string) (v : Z) (e : LCEventImpl) : LCEventImpl :=
  {| evt_runNumber := evt_runNumber e; evt_eventNumber := evt_eventNumber e;
     evt_parameters := evt_parameters e ++ [(key, v)];
     evt_collections := evt_collections e |}.

Record LCWriter : Type := {
  lc_file : option string;
  lc_run_headers : list LCRunHeaderImpl;
  lc_events : list LCEventImpl;
  lc_closed : bool
}.

Definition createLCWriter : LCWriter :=
  {| lc_file := None; lc_run_headers := []; lc_events := []; lc_closed := false |}.

Definition lc_open (file : string) (w : LCWriter) : LCWriter :=
  {| lc_file := Some file; lc_run_headers := lc_run_headers w;
     lc_events := lc_events w; lc_closed := false |}.

Definition writeRunHeader (h : LCRunHeaderImpl) (w : LCWriter) : LCWriter :=
  {| lc_file := lc_file w; lc_run_headers := lc_run_headers w ++ [h];
     lc_events := lc_events w; lc_closed := lc_closed w |}.

Definition lc_close (w : LCWriter) : LCWriter :=
  {| lc_file := lc_file w; lc_run_headers := lc_run_headers w;
     lc_events := lc_events w; lc_closed := true |}.

(** ** The podio event store and its ROOT writer (external library)

    The store holds the named collections of the event in flight;
    [writeEvent] appends to the file one record with the collections that
    were registered for writing, [clear] empties the store. *)

Abbreviation EventRecord := (list (string * list TrackerDataImpl)).

Record EventStore : Type := {
  es_collections : EventRecord
}.

Record ROOTWriter : Type := {
  rw_filename : string;
  rw_registered : list string;
  rw_events : list EventRecord
}.

Definition new_EventStore : EventStore := {| es_collections := [] |}.

Definition new_ROOTWriter (filename : string) : ROOTWriter :=
  {| rw_filename := filename; rw_registered := []; rw_events := [] |}.

Definition writeEvent (store : EventStore) (w : ROOTWriter) : ROOTWriter :=
  {| rw_filename := rw_filename w;
     rw_registered := rw_registered w;
     rw_events :=
       rw_events w ++
       [filter (fun c => bool_decide (c.1 ∈ rw_registered w)) (es_collections store)] |}.

Definition clear (store : EventStore) : EventStore := {| es_collections := [] |}.

(** ** The environment: files on disk and the log *)

Inductive LogLevel : Type := STATUS | WARNING.

Record Env : Type := {
  fs_files : gmap string (list token);   (* text files, by path *)
  fs_writable : string -> bool;          (* whether a path can be opened for writing *)
  log : list (LogLevel * list token)
}.

Definition LOG (level : LogLevel) (text : list token) (env : Env) : Env :=
  {| fs_files := fs_files env; fs_writable := fs_writable env;
     log := log env ++ [(level, text)] |}.

Definition write_file (path : string) (text : list token) (env : Env) : Env :=
  {| fs_files := <[path := text]> (fs_files env); fs_writable := fs_writable env;
     log := log env |}.

(** ** What the module takes from outside its sources

    [createOutputFile] is inherited from the framework's module base class,
    [getRotationAnglesFromMatrix] and the encoding string
    [gTrackerDataEncoding] are used by the module and defined elsewhere.
    They are parameters of everything below. *)

Class Framework : Type := {
  createOutputFile : string -> string -> string;
  getRotationAnglesFromMatrix : Rotation3D -> float * float * float;
  gTrackerDataEncoding : string
}.

(** ** The module's data members

    The header declares [messenger_], [geo_mgr_], [event_store_] and
    [writer_]; the other members are used by the implementation without a
    declaration in the sources, and are given here the types their uses
    require. *)

Record PODIOWriterModule : Type := {
  config_ : Configuration;
  messenger_ : Messenger;
  geo_mgr_ : GeometryManager;
  pixel_type_ : Z;
  detector_name_ : string;
  dump_mc_truth_ : bool;
  geometry_file_name_ : string;
  lcio_file_name_ : string;
  lcWriter_ : option LCWriter;
  event_store_ : option EventStore;
  writer_ : option ROOTWriter;
  collection_names_vector_ : list string;
  detector_names_to_id_ : gmap string Z;
  write_cnt_ : Z
}.

(** [static_cast<int>] of an unsigned 64-bit number: the low 32 bits, read
    as a signed number. *)
Definition to_int (z : Z) : Z := (z + 2 ^ 31) mod 2 ^ 32 - 2 ^ 31.

(** An unsigned integer converted to [double] for a mixed product. *)
Definition double_of_unsigned (n : Z) : float := PrimFloat.of_uint63 (Uint63.of_Z n).

(** [detector_names_to_id_[name]]: [operator[]] of an ordered map enters the
    value-initialised id 0 for a name it does not hold, and returns the id
    stored for the name. *)
Definition registry_index (name : string) (registry : gmap string Z)
  : Z * gmap string Z :=
  match registry !! name with
  | Some id => (id, registry)
  | None => (0, <[name := 0]> registry)
  end.

(** The locals of [run] as they stand when it returns. *)
Record run_locals : Type := {
  pixel_messages : list PixelHitMessage;
  evt : LCEventImpl;
  output_col_vec : list LCCollectionVec;
  output_col_encoder_vec : list CellIDEncoder;
  mc_cluster_vec : option LCCollectionVec;
  mc_cluster_raw_vec : option LCCollectionVec;
  mc_hit_vec : option LCCollectionVec;
  mc_track_vec : option LCCollectionVec
}.

Section PODIOWriter.

Context `{Framework}.

(** *** PODIOWriterModule::PODIOWriterModule (lines 25-44)

    Members the constructor does not name are default-constructed: the
    strings and containers are empty, the smart pointers are null; the
    event counter starts at 0.  [allow_multithreading] only tells the
    framework how it may schedule the module and leaves no trace here. *)
Definition new_PODIOWriterModule
    (config : Configuration) (messenger : Messenger) (geo : GeometryManager)
  : result PODIOWriterModule :=
  let config := setDefault "file_name" "output.edm4allpix.root" config in
  pixel_type <- get_int "pixel_type" config;;
  detector_name <- get_string "detector_name" config;;
  dump_mc_truth <- get_bool "dump_mc_truth" config;;
  let has_short_config := has "output_collection_name" config in
  let has_long_config := has "detector_assignment" config in
  let detectors := getDetectors geo in
  ok {| config_ := config;
        messenger_ := messenger;
        geo_mgr_ := geo;
        pixel_type_ := pixel_type;
        detector_name_ := detector_name;
        dump_mc_truth_ := dump_mc_truth;
        geometry_file_name_ := EmptyString;
        lcio_file_name_ := EmptyString;
        lcWriter_ := None;
        event_store_ := None;
        writer_ := None;
        collection_names_vector_ := [];
        detector_names_to_id_ := empty;
        write_cnt_ := 0 |}.

(** *** PODIOWriterModule::initialize (lines 46-61) *)
Definition initialize (this : PODIOWriterModule) : result PODIOWriterModule :=
  geometry_file <- get_string "geometry_file" (config_ this);;
  let geometry_file_name := createOutputFile geometry_file "xml" in
  file_name <- get_string "file_name" (config_ this);;
  let lcio_file_name := createOutputFile file_name "slcio" in
  let lcWriter := lc_open lcio_file_name createLCWriter in
  let run := {| hdr_runNumber := 1; hdr_detectorName := detector_name_ this |} in
  let lcWriter := writeRunHeader run lcWriter in
  let event_store := new_EventStore in
  let writer := new_ROOTWriter "output.root" in
  ok {| config_ := config_ this;
        messenger_ := messenger_ this;
        geo_mgr_ := geo_mgr_ this;
        pixel_type_ := pixel_type_ this;
        detector_name_ := detector_name_ this;
        dump_mc_truth_ := dump_mc_truth_ this;
        geometry_file_name_ := geometry_file_name;
        lcio_file_name_ := lcio_file_name;
        lcWriter_ := Some lcWriter;
        event_store_ := Some event_store;
        writer_ := Some writer;
        collection_names_vector_ := collection_names_vector_ this;
        detector_names_to_id_ := detector_names_to_id_ this;
        write_cnt_ := write_cnt_ this |}.

(** *** PODIOWriterModule::run (lines 63-90) *)
Definition run (this : PODIOWriterModule) (event : Event)
  : result (run_locals * PODIOWriterModule) :=
  let pixel_messages := fetchMultiMessage (messenger_ this) event in
  let evt := new_LCEventImpl in
  let evt := setRunNumber 1 evt in
  let evt := setEventNumber (to_int (number event)) evt in
  let evt := setValue "EventType" 2 evt in
  (* one collection and one encoder per configured collection name *)
  let output_col_vec :=
    map (fun _ => bind_encoding gTrackerDataEncoding (new_LCCollectionVec TRACKERDATA))
        (collection_names_vector_ this) in
  let output_col_encoder_vec :=
    imap (fun i _ => {| enc_encoding := gTrackerDataEncoding; enc_collection := i |})
         (collection_names_vector_ this) in
  let mc_cluster_vec : option LCCollectionVec := None in
  let mc_cluster_raw_vec : option LCCollectionVec := None in
  let mc_hit_vec : option LCCollectionVec := None in
  let mc_track_vec : option LCCollectionVec := None in
  (* Write the event to the output file *)
  writer <- deref (writer_ this);;
  event_store <- deref (event_store_ this);;
  let writer := writeEvent event_store writer in
  let event_store := clear event_store in
  ok ({| pixel_messages := pixel_messages;
         evt := evt;
         output_col_vec := output_col_vec;
         output_col_encoder_vec := output_col_encoder_vec;
         mc_cluster_vec := mc_cluster_vec;
         mc_cluster_raw_vec := mc_cluster_raw_vec;
         mc_hit_vec := mc_hit_vec;
         mc_track_vec := mc_track_vec |},
      {| config_ := config_ this;
         messenger_ := messenger_ this;
         geo_mgr_ := geo_mgr_ this;
         pixel_type_ := pixel_type_ this;
         detector_name_ := detector_name_ this;
         dump_mc_truth_ := dump_mc_truth_ this;
         geometry_file_name_ := geometry_file_name_ this;
         lcio_file_name_ := lcio_file_name_ this;
         lcWriter_ := lcWriter_ this;
         event_store_ := Some event_store;
         writer_ := Some writer;
         collection_names_vector_ := collection_names_vector_ this;
         detector_names_to_id_ := detector_names_to_id_ this;
         write_cnt_ := write_cnt_ this |}).

(** *** PODIOWriterModule::finalize (lines 92-191)

    The text of the geometry file is assembled piece by piece, in the
    order of the [<<] operands of the source. *)

(** Lines 111-121: the magnetic field element, and the warning logged with
    it (if any). *)
Definition write_bfield (geo : GeometryManager) : list token * option (list token) :=
  match getMagneticFieldType geo with
  | CONSTANT =>
      let b_field := getMagneticField geo {| vx := 0; vy := 0; vz := 0 |} in
      (str ("  <BField type=" +:+ dq +:+ "ConstantBField" +:+ dq +:+ " x=" +:+ dq)
         ++ [Quantity (vx b_field) "T"] ++ str (dq +:+ " y=" +:+ dq)
         ++ [Quantity (vy b_field) "T"] ++ str (dq +:+ " z=" +:+ dq)
         ++ [Quantity (vz b_field) "T"] ++ str (dq +:+ "/>")
         ++ endl,
       None)
  | NONE =>
      (str ("  <BField type=" +:+ dq +:+ "ConstantBField" +:+ dq +:+ " x=" +:+ dq +:+ "0.0"
              +:+ dq +:+ " y=" +:+ dq +:+ "0.0" +:+ dq +:+ " z=" +:+ dq +:+ "0.0" +:+ dq +:+ "/>")
         ++ endl,
       None)
  | _ =>
      (str ("  <BField type=" +:+ dq +:+ "ConstantBField" +:+ dq +:+ " x=" +:+ dq +:+ "0.0"
              +:+ dq +:+ " y=" +:+ dq +:+ "0.0" +:+ dq +:+ " z=" +:+ dq +:+ "0.0" +:+ dq +:+ "/>")
         ++ endl,
       Some (str "Field type not handled by GEAR geometry. Writing null magnetic field instead."))
  end.

(** Lines 145-160: the ladder of one detector. *)
Definition write_ladder (id : Z) (detector : Detector) : list token :=
  let position := getPosition detector in
  let model := getModel detector in
  let total_size := getSize model in
  str ("          <ladder ID=" +:+ dq) ++ [Num id] ++ str dq ++ endl
  ++ str ("            positionX=" +:+ dq) ++ [Quantity (vx position) "mm"]
  ++ str (dq +:+ tab +:+ "positionY=" +:+ dq) ++ [Quantity (vy position) "mm"]
  ++ str (dq +:+ tab +:+ "positionZ=" +:+ dq) ++ [Quantity (vz position) "mm"]
  ++ str dq ++ endl
  ++ (let angles := getRotationAnglesFromMatrix (getOrientation detector) in
      str ("            rotationZY=" +:+ dq) ++ [Quantity (- angles.1.1)%float "deg"]
      ++ str (dq +:+ "     rotationZX=" +:+ dq) ++ [Quantity (- angles.1.2)%float "deg"]
      ++ str (dq +:+ "   rotationXY=" +:+ dq) ++ [Quantity (- angles.2)%float "deg"]
      ++ str dq ++ endl)
  ++ str ("            sizeX=" +:+ dq) ++ [Quantity (vx total_size) "mm"]
  ++ str (dq +:+ tab +:+ "sizeY=" +:+ dq) ++ [Quantity (vy total_size) "mm"]
  ++ str (dq +:+ tab +:+ "thickness=" +:+ dq) ++ [Quantity (vz total_size) "mm"]
  ++ str dq ++ endl
  ++ str ("            radLength=" +:+ dq +:+ "93.65" +:+ dq) ++ endl
  ++ str "            />" ++ endl.

(** Lines 162-177: the sensitive area of one detector. *)
Definition write_sensitive (id : Z) (detector : Detector) : list token :=
  let position := getPosition detector in
  let model := getModel detector in
  let npixels := getNPixels model in
  let pitch := getPixelSize model in
  let sensitive_size := getSensorSize model in
  str ("          <sensitive ID=" +:+ dq) ++ [Num id] ++ str dq ++ endl
  ++ str ("            positionX=" +:+ dq) ++ [Quantity (vx position) "mm"]
  ++ str (dq +:+ tab +:+ "positionY=" +:+ dq) ++ [Quantity (vy position) "mm"]
  ++ str (dq +:+ tab +:+ "positionZ=" +:+ dq) ++ [Quantity (vz position) "mm"]
  ++ str dq ++ endl
  ++ str ("            sizeX=" +:+ dq)
  ++ [Quantity (double_of_unsigned npixels.1 * pitch.1)%float "mm"]
  ++ str (dq +:+ tab +:+ "sizeY=" +:+ dq)
  ++ [Quantity (double_of_unsigned npixels.2 * pitch.2)%float "mm"]
  ++ str (dq +:+ tab +:+ "thickness=" +:+ dq) ++ [Quantity (vz sensitive_size) "mm"]
  ++ str dq ++ endl
  ++ str ("            npixelX=" +:+ dq) ++ [Num npixels.1]
  ++ str (dq +:+ tab +:+ "npixelY=" +:+ dq) ++ [Num npixels.2] ++ str dq ++ endl
  ++ str ("            pitchX=" +:+ dq) ++ [Quantity pitch.1 "mm"]
  ++ str (dq +:+ tab +:+ "pitchY=" +:+ dq) ++ [Quantity pitch.2 "mm"]
  ++ str (dq +:+ tab +:+ "resolution=" +:+ dq)
  ++ [Quantity (pitch.1 / PrimFloat.sqrt 12)%float "mm"]
  ++ str dq ++ endl
  ++ str ("            rotation1=" +:+ dq +:+ "1.0" +:+ dq +:+ tab +:+ "rotation2=" +:+ dq
            +:+ "0.0" +:+ dq) ++ endl
  ++ str ("            rotation3=" +:+ dq +:+ "0.0" +:+ dq +:+ tab +:+ "rotation4=" +:+ dq
            +:+ "1.0" +:+ dq) ++ endl
  ++ str ("            radLength=" +:+ dq +:+ "93.65" +:+ dq) ++ endl
  ++ str "            />" ++ endl.

(** Lines 131-180: the body of the loop over the detectors.  The registry
    is indexed once for the ladder and once for the sensitive area. *)
Definition write_layer (registry : gmap string Z) (detector : Detector)
  : list token * gmap string Z :=
  let '(ladder_id, registry) := registry_index (getName detector) registry in
  let '(sensitive_id, registry) := registry_index (getName detector) registry in
  (str "      <!-- Allpix Squared Detector: " ++ str (getName detector)
     ++ str " - type: " ++ str (getType detector) ++ str " -->" ++ endl
     ++ str "        <layer>" ++ endl
     ++ write_ladder ladder_id detector
     ++ write_sensitive sensitive_id detector
     ++ str "        </layer>" ++ endl,
   registry).

Fixpoint write_layers (registry : gmap string Z) (detectors : list Detector)
  : list token * gmap string Z :=
  match detectors with
  | [] => ([], registry)
  | detector :: rest =>
      let '(layer, registry) := write_layer registry detector in
      let '(layers, registry) := write_layers registry rest in
      (layer ++ layers, registry)
  end.

(** Lines 105-187: everything written to the geometry file. *)
Definition write_geometry (this : PODIOWriterModule)
  : list token * gmap string Z * option (list token) :=
  let detectors := getDetectors (geo_mgr_ this) in
  let '(bfield, warning) := write_bfield (geo_mgr_ this) in
  let '(layers, registry) := write_layers (detector_names_to_id_ this) detectors in
  (str ("<?xml version=" +:+ dq +:+ "1.0" +:+ dq +:+ " encoding=" +:+ dq +:+ "utf-8" +:+ dq
          +:+ "?>") ++ endl
     ++ str ("<!-- ?xml-stylesheet type=" +:+ dq +:+ "text/xsl" +:+ dq +:+ " href=" +:+ dq
               +:+ "https://cern.ch/allpix-squared/" +:+ dq +:+ "? -->") ++ endl
     ++ str "<gear>" ++ endl
     ++ str ("  <global detectorName=" +:+ dq) ++ str (detector_name_ this)
     ++ str (dq +:+ "/>") ++ endl
     ++ bfield
     ++ str "  <detectors>" ++ endl
     ++ str ("    <detector name=" +:+ dq +:+ "SiPlanes" +:+ dq +:+ " geartype=" +:+ dq
               +:+ "SiPlanesParameters" +:+ dq +:+ ">") ++ endl
     ++ str ("      <siplanesType type=" +:+ dq +:+ "TelescopeWithoutDUT" +:+ dq +:+ "/>")
     ++ endl
     ++ str ("      <siplanesNumber number=" +:+ dq)
     ++ [Num (Z.of_nat (length detectors))] ++ str (dq +:+ "/>") ++ endl
     ++ str ("      <siplanesID ID=" +:+ dq) ++ [Num 0] ++ str (dq +:+ "/>") ++ endl
     ++ str "      <layers>" ++ endl
     ++ layers
     ++ str "      </layers>" ++ endl
     ++ str "    </detector>" ++ endl
     ++ str "  </detectors>" ++ endl
     ++ str "</gear>" ++ endl,
   registry, warning).

Definition set_lcWriter (w : LCWriter) (registry : gmap string Z) (this : PODIOWriterModule)
  : PODIOWriterModule :=
  {| config_ := config_ this;
     messenger_ := messenger_ this;
     geo_mgr_ := geo_mgr_ this;
     pixel_type_ := pixel_type_ this;
     detector_name_ := detector_name_ this;
     dump_mc_truth_ := dump_mc_truth_ this;
     geometry_file_name_ := geometry_file_name_ this;
     lcio_file_name_ := lcio_file_name_ this;
     lcWriter_ := Some w;
     event_store_ := event_store_ this;
     writer_ := writer_ this;
     collection_names_vector_ := collection_names_vector_ this;
     detector_names_to_id_ := registry;
     write_cnt_ := write_cnt_ this |}.

Definition finalize (this : PODIOWriterModule) (env : Env)
  : result (PODIOWriterModule * Env) :=
  lcWriter <- deref (lcWriter_ this);;
  let lcWriter := lc_close lcWriter in
  (* Print statistics *)
  let env :=
    LOG STATUS (str "Wrote " ++ [Num (write_cnt_ this)] ++ str " events to file:" ++ endl
                  ++ str (lcio_file_name_ this)) env in
  (* Write geometry: *)
  if negb (String.eqb (geometry_file_name_ this) EmptyString) then
    if negb (fs_writable env (geometry_file_name_ this)) then
      throw (ModuleError "Cannot write to GEAR geometry file")
    else
      let '(text, registry, warning) := write_geometry this in
      let env :=
        match warning with
        | Some w => LOG WARNING w env
        | None => env
        end in
      let env := write_file (geometry_file_name_ this) text env in
      let env :=
        LOG STATUS (str "Wrote GEAR geometry to file:" ++ endl
                      ++ str (geometry_file_name_ this)) env in
      ok (set_lcWriter lcWriter registry this, env)
  else
    ok (set_lcWriter lcWriter (detector_names_to_id_ this) this, env).

End PODIOWriter.

(** * The geometry file as a whole

    The pieces [finalize] writes, named so that the properties below can
    speak of them. *)

Section Text.

Context `{Framework}.

(** The id [finalize] writes for a name: the one stored, 0 for a name the
    registry does not hold. *)
Definition id_of (registry : gmap string Z) (name : string) : Z :=
  default 0 (registry !! name).

(** One layer as written for a detector whose id is [id]. *)
Definition layer_open (detector : Detector) : list token :=
  str "      <!-- Allpix Squared Detector: " ++ str (getName detector)
    ++ str " - type: " ++ str (getType detector) ++ str " -->" ++ endl
    ++ str "        <layer>" ++ endl.

Definition layer_close : list token := str "        </layer>" ++ endl.

Definition layer_text (id : Z) (detector : Detector) : list token :=
  layer_open detector ++ write_ladder id detector ++ write_sensitive id detector
    ++ layer_close.

Definition gear_head (this : PODIOWriterModule) : list token :=
  str ("<?xml version=" +:+ dq +:+ "1.0" +:+ dq +:+ " encoding=" +:+ dq +:+ "utf-8" +:+ dq
         +:+ "?>") ++ endl
    ++ str ("<!-- ?xml-stylesheet type=" +:+ dq +:+ "text/xsl" +:+ dq +:+ " href=" +:+ dq
              +:+ "https://cern.ch/allpix-squared/" +:+ dq +:+ "? -->") ++ endl
    ++ str "<gear>" ++ endl
    ++ str ("  <global detectorName=" +:+ dq) ++ str (detector_name_ this)
    ++ str (dq +:+ "/>") ++ endl.

Definition gear_detectors (n : nat) : list token :=
  str "  <detectors>" ++ endl
    ++ str ("    <detector name=" +:+ dq +:+ "SiPlanes" +:+ dq +:+ " geartype=" +:+ dq
              +:+ "SiPlanesParameters" +:+ dq +:+ ">") ++ endl
    ++ str ("      <siplanesType type=" +:+ dq +:+ "TelescopeWithoutDUT" +:+ dq +:+ "/>")
    ++ endl
    ++ str ("      <siplanesNumber number=" +:+ dq)
    ++ [Num (Z.of_nat n)] ++ str (dq +:+ "/>") ++ endl
    ++ str ("      <siplanesID ID=" +:+ dq) ++ [Num 0] ++ str (dq +:+ "/>") ++ endl
    ++ str "      <layers>" ++ endl.

Definition gear_tail : list token :=
  str "      </layers>" ++ endl
    ++ str "    </detector>" ++ endl
    ++ str "  </detectors>" ++ endl
    ++ str "</gear>" ++ endl.

(** The whole file: head, field, one layer per detector of the geometry
    in the order of [getDetectors], tail. *)
Definition geometry_text (this : PODIOWriterModule) : list token :=
  let detectors := getDetectors (geo_mgr_ this) in
  gear_head this
    ++ (write_bfield (geo_mgr_ this)).1
    ++ gear_detectors (length detectors)
    ++ flat_map
         (fun d => layer_text (id_of (detector_names_to_id_ this) (getName d)) d)
         detectors
    ++ gear_tail.

Definition warnings_of (this : PODIOWriterModule) : list (LogLevel * list token) :=
  match (write_bfield (geo_mgr_ this)).2 with
  | Some w => [(WARNING, w)]
  | None => []
  end.

Definition wrote_events (this : PODIOWriterModule) : LogLevel * list token :=
  (STATUS, str "Wrote " ++ [Num (write_cnt_ this)] ++ str " events to file:" ++ endl
             ++ str (lcio_file_name_ this)).

Definition wrote_geometry (this : PODIOWriterModule) : LogLevel * list token :=
  (STATUS, str "Wrote GEAR geometry to file:" ++ endl ++ str (geometry_file_name_ this)).

Definition field_warning : LogLevel * list token :=
  (WARNING,
   str "Field type not handled by GEAR geometry. Writing null magnetic field instead.").

(** The framework calls [run] once for every event, in order; an
    exception ends the run. *)
Fixpoint run_events (this : PODIOWriterModule) (events : list Event)
  : result PODIOWriterModule :=
  match events with
  | [] => ok this
  | event :: rest =>
      after <- run this event;;
      run_events after.2 rest
  end.

End Text.

(** * A two-plane telescope

    Two unrotated planes of 100 x 100 pixels with a pitch of 0.05, 50 apart
    along z, and one event with one hit at pixel (10, 20) of the second
    plane.  The sensor is 5.2 wide, a little more than its pixel grid. *)

(** For unrotated planes the three angles are zero; output files get their
    extension appended. *)
#[export] Instance telescope_framework : Framework := {|
  createOutputFile := fun path extension => path +:+ "." +:+ extension;
  getRotationAnglesFromMatrix := fun _ => (0%float, 0%float, 0%float);
  gTrackerDataEncoding := "sensorID:7,sparsePixelType:5"
|}.

Definition identity_rotation : Rotation3D :=
  {| xx := 1; xy := 0; xz := 0;
     yx := 0; yy := 1; yz := 0;
     zx := 0; zy := 0; zz := 1 |}.

Definition plane_model : DetectorModel :=
  {| getNPixels := (100, 100);
     getPixelSize := (0.05%float, 0.05%float);
     getSize := {| vx := 6; vy := 6; vz := 1 |};
     getSensorSize := {| vx := 5.2%float; vy := 5.2%float; vz := 0.3%float |} |}.

Definition plane0 : Detector :=
  {| getName := "plane0"; getType := "telescope_plane";
     getPosition := {| vx := 0; vy := 0; vz := 0 |};
     getOrientation := identity_rotation;
     getModel := plane_model |}.

Definition plane1 : Detector :=
  {| getName := "plane1"; getType := "telescope_plane";
     getPosition := {| vx := 0; vy := 0; vz := 50 |};
     getOrientation := identity_rotation;
     getModel := plane_model |}.

Definition telescope_geometry (field : MagneticFieldType) : GeometryManager :=
  {| getDetectors := [plane0; plane1];
     getMagneticFieldType := field;
     getMagneticField := fun _ => {| vx := 0; vy := 0; vz := 0.001%float |} |}.

Definition telescope_messenger : Messenger := {| messenger_id := 0 |}.

Definition telescope_config : Configuration :=
  list_to_map [("pixel_type", CfgInt 2);
               ("detector_name", CfgString "telescope");
               ("dump_mc_truth", CfgBool true);
               ("geometry_file", CfgString "telescope_gear")].

(** The same configuration naming a single collection and a per-detector
    assignment at once. *)
Definition both_modes_config : Configuration :=
  <["output_collection_name" := CfgString "zsdata_m26"]>
    (<["detector_assignment" := CfgString "plane0 zsdata_m26 plane1 zsdata_apix"]>
       telescope_config).

Definition telescope_env : Env :=
  {| fs_files := empty; fs_writable := fun _ => true; log := [] |}.

Definition hit_event : Event :=
  {| number := 1;
     messages := [{| msg_detector := "plane1";
                     msg_data := [{| hit_x := 10; hit_y := 20; hit_signal := 1 |}] |}] |}.

(** An event whose only hit names a detector the geometry does not hold. *)
Definition stray_event : Event :=
  {| number := 2;
     messages := [{| msg_detector := "plane7";
                     msg_data := [{| hit_x := 3; hit_y := 4; hit_signal := 1 |}] |}] |}.

(** The module as the constructor and [initialize] leave it for
    [telescope_config], with the name of the geometry file left open. *)
Definition telescope_module_at (geometry_file_name : string) (field : MagneticFieldType)
  : PODIOWriterModule :=
  {| config_ := setDefault "file_name" "output.edm4allpix.root" telescope_config;
     messenger_ := telescope_messenger;
     geo_mgr_ := telescope_geometry field;
     pixel_type_ := 2;
     detector_name_ := "telescope";
     dump_mc_truth_ := true;
     geometry_file_name_ := geometry_file_name;
     lcio_file_name_ := "output.edm4allpix.root.slcio";
     lcWriter_ :=
       Some (writeRunHeader {| hdr_runNumber := 1; hdr_detectorName := "telescope" |}
               (lc_open "output.edm4allpix.root.slcio" createLCWriter));
     event_store_ := Some new_EventStore;
     writer_ := Some (new_ROOTWriter "output.root");
     collection_names_vector_ := [];
     detector_names_to_id_ := empty;
     write_cnt_ := 0 |}.

Definition telescope_module : MagneticFieldType -> PODIOWriterModule :=
  telescope_module_at "telescope_gear.xml".

(** The module as the constructor leaves it for [telescope_config]. *)
Definition telescope_constructed : PODIOWriterModule :=
  {| config_ := setDefault "file_name" "output.edm4allpix.root" telescope_config;
     messenger_ := telescope_messenger;
     geo_mgr_ := telescope_geometry NONE;
     pixel_type_ := 2;
     detector_name_ := "telescope";
     dump_mc_truth_ := true;
     geometry_file_name_ := EmptyString;
     lcio_file_name_ := EmptyString;
     lcWriter_ := None;
     event_store_ := None;
     writer_ := None;
     collection_names_vector_ := [];
     detector_names_to_id_ := empty;
     write_cnt_ := 0 |}.

(** The telescope before its planes are installed: the same module on a
    geometry without detectors. *)
Definition bare_module : PODIOWriterModule :=
  {| config_ := config_ (telescope_module NONE);
     messenger_ := telescope_messenger;
     geo_mgr_ := {| getDetectors := [];
                    getMagneticFieldType := NONE;
                    getMagneticField := fun _ => {| vx := 0; vy := 0; vz := 0 |} |};
     pixel_type_ := 2;
     detector_name_ := "telescope";
     dump_mc_truth_ := true;
     geometry_file_name_ := "telescope_gear.xml";
     lcio_file_name_ := "output.edm4allpix.root.slcio";
     lcWriter_ := lcWriter_ (telescope_module NONE);
     event_store_ := Some new_EventStore;
     writer_ := Some (new_ROOTWriter "output.root");
     collection_names_vector_ := [];
     detector_names_to_id_ := empty;
     write_cnt_ := 0 |}.

(** The configuration of the telescope without the key [geometry_file]. *)
Definition config_without_geometry_file : Configuration :=
  list_to_map [("pixel_type", CfgInt 2);
               ("detector_name", CfgString "telescope");
               ("dump_mc_truth", CfgBool true)].

(** An event numbered past the largest [int]. *)
Definition late_event : Event :=
  {| number := 2147483653; messages := [] |}.

(** A disk on which nothing can be opened for writing. *)
Definition read_only_env : Env :=
  {| fs_files := empty; fs_writable := fun _ => false; log := [] |}.

(** The state the module would be in had something filled its registry
    and its list of collection names: plane0 and plane1 are known under the
    ids 0 and 1 and one output collection is configured. *)
Definition telescope_module_registered : PODIOWriterModule :=
  {| config_ := config_ (telescope_module NONE);
     messenger_ := telescope_messenger;
     geo_mgr_ := telescope_geometry NONE;
     pixel_type_ := 2;
     detector_name_ := "telescope";
     dump_mc_truth_ := true;
     geometry_file_name_ := "telescope_gear.xml";
     lcio_file_name_ := "output.edm4allpix.root.slcio";
     lcWriter_ := lcWriter_ (telescope_module NONE);
     event_store_ := Some new_EventStore;
     writer_ := Some (new_ROOTWriter "output.root");
     collection_names_vector_ := ["zsdata_m26"];
     detector_names_to_id_ := <["plane1" := 1]> (<["plane0" := 0]> empty);
     write_cnt_ := 0 |}.

(** * Properties *)

Section Properties.

Context `{Framework}.

(** ** The detector-id registry *)

Lemma registry_index_id name (registry : gmap string Z) :
  (registry_index name registry).1 = id_of registry name.
Proof.
  unfold registry_index, id_of.
  destruct (registry !! name); reflexivity.
Qed.

Lemma registry_index_keeps name (registry : gmap string Z) k :
  id_of (registry_index name registry).2 k = id_of registry k.
Proof.
  unfold registry_index, id_of.
  destruct (registry !! name) eqn:Hname; simpl; [reflexivity|].
  destruct (decide (name = k)) as [->|Hne].
  - rewrite lookup_insert_eq, Hname. reflexivity.
  - rewrite lookup_insert_ne by assumption. reflexivity.
Qed.

(** Indexing never overwrites an entry. *)
Lemma registry_index_stable name (registry : gmap string Z) k id :
  registry !! k = Some id -> (registry_index name registry).2 !! k = Some id.
Proof.
  unfold registry_index. intros Hk.
  destruct (registry !! name) eqn:Hname; simpl; [assumption|].
  rewrite lookup_insert_ne; [assumption|]. congruence.
Qed.

Lemma write_layer_text registry detector :
  (write_layer registry detector).1
  = layer_text (id_of registry (getName detector)) detector.
Proof.
  unfold write_layer.
  pose proof (registry_index_id (getName detector) registry) as Hl.
  pose proof (registry_index_keeps (getName detector) registry (getName detector)) as Hk.
  destruct (registry_index (getName detector) registry) as [ladder_id registry1].
  pose proof (registry_index_id (getName detector) registry1) as Hs.
  destruct (registry_index (getName detector) registry1) as [sensitive_id registry2].
  cbn [fst snd] in *. subst. rewrite Hk.
  unfold layer_text, layer_open, layer_close. rewrite <- !app_assoc. reflexivity.
Qed.

Lemma write_layer_keeps registry detector k :
  id_of (write_layer registry detector).2 k = id_of registry k.
Proof.
  unfold write_layer.
  pose proof (registry_index_keeps (getName detector) registry k) as H1.
  destruct (registry_index (getName detector) registry) as [ladder_id registry1].
  pose proof (registry_index_keeps (getName detector) registry1 k) as H2.
  destruct (registry_index (getName detector) registry1) as [sensitive_id registry2].
  cbn [fst snd] in *. congruence.
Qed.

Lemma write_layers_keeps detectors : forall registry k,
  id_of (write_layers registry detectors).2 k = id_of registry k.
Proof.
  induction detectors as [|detector rest IH]; intros registry k;
    cbn [write_layers snd]; [reflexivity|].
  pose proof (write_layer_keeps registry detector k) as Hd.
  destruct (write_layer registry detector) as [layer registry1].
  specialize (IH registry1 k).
  destruct (write_layers registry1 rest) as [layers registry2].
  cbn [snd] in *. congruence.
Qed.

Lemma write_layers_text detectors : forall registry,
  (write_layers registry detectors).1
  = flat_map (fun d => layer_text (id_of registry (getName d)) d) detectors.
Proof.
  induction detectors as [|detector rest IH]; intros registry;
    cbn [write_layers flat_map fst]; [reflexivity|].
  pose proof (write_layer_text registry detector) as Hd.
  pose proof (fun k => write_layer_keeps registry detector k) as Hk.
  destruct (write_layer registry detector) as [layer registry1].
  specialize (IH registry1).
  destruct (write_layers registry1 rest) as [layers registry2].
  cbn [fst snd flat_map] in *. subst. f_equal.
  apply flat_map_ext. intros d. rewrite Hk. reflexivity.
Qed.

(** ** The text of the geometry file *)

Lemma write_geometry_text this : (write_geometry this).1.1 = geometry_text this.
Proof.
  unfold write_geometry, geometry_text.
  destruct (write_bfield (geo_mgr_ this)) as [bfield warning].
  pose proof (write_layers_text (getDetectors (geo_mgr_ this)) (detector_names_to_id_ this))
    as Hlayers.
  destruct (write_layers (detector_names_to_id_ this) (getDetectors (geo_mgr_ this)))
    as [layers registry].
  cbn [fst snd] in *. subst layers.
  unfold gear_head, gear_detectors, gear_tail.
  rewrite <- !app_assoc. reflexivity.
Qed.

Lemma write_geometry_warning this :
  (write_geometry this).2 = (write_bfield (geo_mgr_ this)).2.
Proof.
  unfold write_geometry.
  destruct (write_bfield (geo_mgr_ this)) as [bfield warning].
  destruct (write_layers (detector_names_to_id_ this) (getDetectors (geo_mgr_ this))).
  reflexivity.
Qed.

Lemma write_geometry_keeps this k :
  id_of (write_geometry this).1.2 k = id_of (detector_names_to_id_ this) k.
Proof.
  unfold write_geometry.
  destruct (write_bfield (geo_mgr_ this)) as [bfield warning].
  pose proof (write_layers_keeps (getDetectors (geo_mgr_ this)) (detector_names_to_id_ this) k)
    as Hkeeps.
  destruct (write_layers (detector_names_to_id_ this) (getDetectors (geo_mgr_ this))).
  exact Hkeeps.
Qed.

(** [finalize] on an open writer and a geometry file that can be written:
    it returns, the file holds [geometry_text], and the log grows by the two
    status lines with the field warning (if any) between them. *)
Lemma finalize_writes this env w :
  lcWriter_ this = Some w ->
  geometry_file_name_ this <> EmptyString ->
  fs_writable env (geometry_file_name_ this) = true ->
  exists this' env',
    finalize this env = inr (this', env')
    /\ fs_files env'
       = <[geometry_file_name_ this := geometry_text this]> (fs_files env)
    /\ log env'
       = log env ++ [wrote_events this] ++ warnings_of this ++ [wrote_geometry this]
    /\ (forall k, id_of (detector_names_to_id_ this') k
                  = id_of (detector_names_to_id_ this) k).
Proof.
  intros Hw Hname Hgood.
  unfold finalize. rewrite Hw. cbn [deref bind ok].
  destruct (String.eqb (geometry_file_name_ this) EmptyString) eqn:Heq.
  { apply String.eqb_eq in Heq. contradiction. }
  cbn [negb LOG fs_writable]. rewrite Hgood. cbn [negb].
  pose proof (write_geometry_text this) as Htext.
  pose proof (write_geometry_warning this) as Hwarn.
  pose proof (write_geometry_keeps this) as Hkeeps.
  unfold warnings_of.
  destruct (write_geometry this) as [[text registry] warning].
  cbn [fst snd] in *. subst text. rewrite <- Hwarn.
  eexists _, _. split; [reflexivity|].
  split; [destruct warning; reflexivity|].
  split; [|exact Hkeeps].
  destruct warning; cbn [log LOG write_file]; rewrite <- !app_assoc; reflexivity.
Qed.

Lemma flat_map_lookup {A B : Type} (f : A -> list B) (l : list A) i x :
  l !! i = Some x ->
  flat_map f l = flat_map f (take i l) ++ f x ++ flat_map f (drop (S i) l).
Proof.
  intros Hi.
  transitivity (flat_map f (take i l ++ x :: drop (S i) l)).
  - f_equal. symmetry. apply take_drop_middle. exact Hi.
  - rewrite flat_map_app. reflexivity.
Qed.

(** The layer of the [i]-th detector stands in the file, its ladder
    followed by its sensitive area, both under the id of the detector. *)
Lemma geometry_text_layer this i d :
  getDetectors (geo_mgr_ this) !! i = Some d ->
  exists before after,
    geometry_text this
    = before
        ++ write_ladder (id_of (detector_names_to_id_ this) (getName d)) d
        ++ write_sensitive (id_of (detector_names_to_id_ this) (getName d)) d
        ++ after.
Proof.
  intros Hi. unfold geometry_text. cbv zeta.
  rewrite (flat_map_lookup _ _ _ _ Hi). unfold layer_text at 2.
  set (layer := fun d => layer_text _ d).
  exists (gear_head this ++ (write_bfield (geo_mgr_ this)).1
            ++ gear_detectors (length (getDetectors (geo_mgr_ this)))
            ++ flat_map layer (take i (getDetectors (geo_mgr_ this))) ++ layer_open d),
         (layer_close ++ flat_map layer (drop (S i) (getDetectors (geo_mgr_ this)))
            ++ gear_tail).
  rewrite <- !app_assoc. reflexivity.
Qed.

(** ** What the records say, read back attribute by attribute *)

Lemma write_sensitive_attributes id d :
  attribute "sizeX" (write_sensitive id d)
  = Some [Quantity (double_of_unsigned (getNPixels (getModel d)).1
                    * (getPixelSize (getModel d)).1)%float "mm"]
  /\ attribute "sizeY" (write_sensitive id d)
     = Some [Quantity (double_of_unsigned (getNPixels (getModel d)).2
                       * (getPixelSize (getModel d)).2)%float "mm"]
  /\ attribute "thickness" (write_sensitive id d)
     = Some [Quantity (vz (getSensorSize (getModel d))) "mm"]
  /\ attribute "resolution" (write_sensitive id d)
     = Some [Quantity ((getPixelSize (getModel d)).1 / PrimFloat.sqrt 12)%float "mm"]
  /\ attribute "rotation1" (write_sensitive id d) = Some (str "1.0")
  /\ attribute "rotation2" (write_sensitive id d) = Some (str "0.0")
  /\ attribute "rotation3" (write_sensitive id d) = Some (str "0.0")
  /\ attribute "rotation4" (write_sensitive id d) = Some (str "1.0").
Proof.
  destruct d as [name type position orientation [[nx ny] [px py] size sensor]].
  repeat split; vm_compute; reflexivity.
Qed.

Lemma write_sensitive_id id d :
  attribute "ID" (write_sensitive id d) = Some [Num id].
Proof. destruct d as [? ? ? ? [[? ?] [? ?] ? ?]]. vm_compute. reflexivity. Qed.

Lemma write_ladder_id id d :
  attribute "ID" (write_ladder id d) = Some [Num id].
Proof.
  unfold write_ladder.
  destruct (getRotationAnglesFromMatrix (getOrientation d)) as [[zy zx] xy'].
  destruct d as [? ? ? ? [[? ?] [? ?] ? ?]]. vm_compute. reflexivity.
Qed.

Lemma write_ladder_rotation id d :
  let angles := getRotationAnglesFromMatrix (getOrientation d) in
  attribute "rotationZY" (write_ladder id d) = Some [Quantity (- angles.1.1)%float "deg"]
  /\ attribute "rotationZX" (write_ladder id d) = Some [Quantity (- angles.1.2)%float "deg"]
  /\ attribute "rotationXY" (write_ladder id d) = Some [Quantity (- angles.2)%float "deg"].
Proof.
  unfold write_ladder. cbv zeta.
  destruct (getRotationAnglesFromMatrix (getOrientation d)) as [[zy zx] xy'].
  destruct d as [? ? ? ? [[? ?] [? ?] ? ?]].
  repeat split; vm_compute; reflexivity.
Qed.

Lemma write_ladder_radLength id d :
  attribute "radLength" (write_ladder id d) = Some (str "93.65").
Proof.
  unfold write_ladder.
  destruct (getRotationAnglesFromMatrix (getOrientation d)) as [[zy zx] xy'].
  destruct d as [? ? ? ? [[? ?] [? ?] ? ?]]. vm_compute. reflexivity.
Qed.

Lemma write_sensitive_radLength id d :
  attribute "radLength" (write_sensitive id d) = Some (str "93.65").
Proof. destruct d as [? ? ? ? [[? ?] [? ?] ? ?]]. vm_compute. reflexivity. Qed.

Lemma write_bfield_type geo :
  attribute "type" (write_bfield geo).1 = Some (str "ConstantBField").
Proof.
  unfold write_bfield.
  destruct (getMagneticFieldType geo); [vm_compute; reflexivity| |vm_compute; reflexivity].
  destruct (getMagneticField geo _) as [bx by' bz]. vm_compute. reflexivity.
Qed.

Lemma write_bfield_constant geo :
  getMagneticFieldType geo = CONSTANT ->
  let b_field := getMagneticField geo {| vx := 0; vy := 0; vz := 0 |} in
  attribute "x" (write_bfield geo).1 = Some [Quantity (vx b_field) "T"]
  /\ attribute "y" (write_bfield geo).1 = Some [Quantity (vy b_field) "T"]
  /\ attribute "z" (write_bfield geo).1 = Some [Quantity (vz b_field) "T"]
  /\ (write_bfield geo).2 = None.
Proof.
  intros Htype. unfold write_bfield. rewrite Htype. cbv zeta.
  destruct (getMagneticField geo _) as [bx by' bz].
  repeat split; vm_compute; reflexivity.
Qed.

Lemma write_bfield_zero geo :
  getMagneticFieldType geo <> CONSTANT ->
  attribute "x" (write_bfield geo).1 = Some (str "0.0")
  /\ attribute "y" (write_bfield geo).1 = Some (str "0.0")
  /\ attribute "z" (write_bfield geo).1 = Some (str "0.0")
  /\ (write_bfield geo).2
     = match getMagneticFieldType geo with
       | OTHER => Some (snd field_warning)
       | _ => None
       end.
Proof.
  intros Htype. unfold write_bfield.
  destruct (getMagneticFieldType geo); [|contradiction|];
    repeat split; vm_compute; reflexivity.
Qed.

(** ** The per-event entry point *)

(** What [run] leaves behind does not depend on the event it was given:
    the messages fetched are not looked at again. *)
Lemma run_state_ignores_event this event locals this' :
  run this event = inr (locals, this') ->
  forall event', exists locals', run this event' = inr (locals', this').
Proof.
  unfold run. intros Hrun event'.
  destruct (writer_ this) as [writer|]; [|discriminate].
  destruct (event_store_ this) as [store|]; [|discriminate].
  cbn [deref bind ok] in *. inversion Hrun; subst. eexists. reflexivity.
Qed.

(** The record appended by [run] is made of what the event store held
    before the call; [run] itself puts nothing into the store. *)
Lemma run_writes_store this event locals this' :
  run this event = inr (locals, this') ->
  exists writer store,
    writer_ this = Some writer /\ event_store_ this = Some store
    /\ writer_ this' = Some (writeEvent store writer)
    /\ event_store_ this' = Some (clear store).
Proof.
  unfold run. intros Hrun.
  destruct (writer_ this) as [writer|]; [|discriminate].
  destruct (event_store_ this) as [store|]; [|discriminate].
  cbn [deref bind ok] in *. inversion Hrun; subst.
  exists writer, store. repeat split; reflexivity.
Qed.

(** The four Monte-Carlo collections are null pointers when [run] returns,
    whatever the flag says, and the event object holds no collection. *)
Lemma run_locals_empty this event locals this' :
  run this event = inr (locals, this') ->
  mc_cluster_vec locals = None /\ mc_cluster_raw_vec locals = None
  /\ mc_hit_vec locals = None /\ mc_track_vec locals = None
  /\ evt_collections (evt locals) = []
  /\ Forall (fun c => col_elements c = []) (output_col_vec locals).
Proof.
  unfold run. intros Hrun.
  destruct (writer_ this) as [writer|]; [|discriminate].
  destruct (event_store_ this) as [store|]; [|discriminate].
  cbn [deref bind ok] in *. inversion Hrun; subst.
  cbn [mc_cluster_vec mc_cluster_raw_vec mc_hit_vec mc_track_vec evt output_col_vec].
  repeat split.
  clear Hrun.
  induction (collection_names_vector_ this) as [|name names IH]; cbn [map].
  - constructor.
  - constructor; [reflexivity|exact IH].
Qed.

(** ** The constructor *)

Lemma setDefault_lookup_ne key key' value (config : Configuration) :
  key <> key' -> setDefault key value config !! key' = config !! key'.
Proof.
  intros Hne. unfold setDefault.
  destruct (has key config); [reflexivity|].
  apply lookup_insert_ne. exact Hne.
Qed.

(** The constructor returns as soon as the three keys it reads are there
    with values of the right type; it leaves the list of collection names
    and the registry empty. *)
Lemma constructor_returns config messenger geo pixel_type detector_name dump :
  config !! "pixel_type" = Some (CfgInt pixel_type) ->
  config !! "detector_name" = Some (CfgString detector_name) ->
  config !! "dump_mc_truth" = Some (CfgBool dump) ->
  exists this,
    new_PODIOWriterModule config messenger geo = inr this
    /\ dump_mc_truth_ this = dump
    /\ collection_names_vector_ this = []
    /\ detector_names_to_id_ this = empty.
Proof.
  intros Hpixel Hname Hdump.
  unfold new_PODIOWriterModule, get_int, get_string, get_bool.
  rewrite !setDefault_lookup_ne by discriminate.
  rewrite Hpixel, Hname, Hdump. cbn [bind ok].
  eexists. repeat split.
Qed.

(** Whether the constructor returns or throws does not depend on the two
    keys that select the mode. *)
Lemma constructor_never_checks_the_modes config messenger geo short long :
  succeeds (new_PODIOWriterModule
              (<["output_collection_name" := short]>
                 (<["detector_assignment" := long]> config)) messenger geo)
  = succeeds (new_PODIOWriterModule config messenger geo).
Proof.
  unfold new_PODIOWriterModule, get_int, get_string, get_bool.
  rewrite !setDefault_lookup_ne by discriminate.
  rewrite !lookup_insert_ne by discriminate.
  destruct (config !! "pixel_type") as [[]|]; try reflexivity.
  destruct (config !! "detector_name") as [[]|]; try reflexivity.
  destruct (config !! "dump_mc_truth") as [[]|]; reflexivity.
Qed.

(** ** The registry along the life of a module *)

Lemma initialize_opens_writer this this' :
  initialize this = inr this' ->
  is_Some (lcWriter_ this') /\ is_Some (event_store_ this') /\ is_Some (writer_ this').
Proof.
  unfold initialize. intros Hinit.
  destruct (get_string "geometry_file" _); [discriminate|].
  destruct (get_string "file_name" _); [discriminate|].
  cbn in Hinit. inversion Hinit; subst. cbn. repeat split; eexists; reflexivity.
Qed.

Lemma new_registry_empty config messenger geo this :
  new_PODIOWriterModule config messenger geo = inr this ->
  detector_names_to_id_ this = empty /\ collection_names_vector_ this = [].
Proof.
  unfold new_PODIOWriterModule. intros Hnew.
  destruct (get_int _ _); [discriminate|].
  destruct (get_string _ _); [discriminate|].
  destruct (get_bool _ _); [discriminate|].
  cbn in Hnew. inversion Hnew; subst. split; reflexivity.
Qed.

Lemma initialize_keeps_registry this this' :
  initialize this = inr this' ->
  detector_names_to_id_ this' = detector_names_to_id_ this
  /\ collection_names_vector_ this' = collection_names_vector_ this.
Proof.
  unfold initialize. intros Hinit.
  destruct (get_string "geometry_file" _); [discriminate|].
  destruct (get_string "file_name" _); [discriminate|].
  cbn in Hinit. inversion Hinit; subst. split; reflexivity.
Qed.

Lemma run_keeps_registry this event locals this' :
  run this event = inr (locals, this') ->
  detector_names_to_id_ this' = detector_names_to_id_ this
  /\ collection_names_vector_ this' = collection_names_vector_ this.
Proof.
  unfold run. intros Hrun.
  destruct (writer_ this) as [writer|]; [|discriminate].
  destruct (event_store_ this) as [store|]; [|discriminate].
  cbn [deref bind ok] in *. inversion Hrun; subst. split; reflexivity.
Qed.

(** With a registry that holds no name, every layer is written under id 0. *)
Lemma empty_registry_text this :
  detector_names_to_id_ this = empty ->
  geometry_text this
  = gear_head this ++ (write_bfield (geo_mgr_ this)).1
      ++ gear_detectors (length (getDetectors (geo_mgr_ this)))
      ++ flat_map (layer_text 0) (getDetectors (geo_mgr_ this))
      ++ gear_tail.
Proof.
  intros Hempty. unfold geometry_text. cbv zeta. rewrite Hempty.
  rewrite (flat_map_ext _ (layer_text 0)); [reflexivity|].
  intros d. unfold id_of. rewrite lookup_empty. reflexivity.
Qed.

Lemma reads_nil text : reads text [].
Proof. apply Forall_nil_2. Qed.

Lemma reads_cons text name value pairs :
  attribute name text = Some value ->
  reads text pairs ->
  reads text ((name, value) :: pairs).
Proof. intros Hhead Htail. apply Forall_cons_2; assumption. Qed.

(** Reads a list of attributes off hypotheses or the lemmas given. *)
Ltac read_off :=
  repeat first [apply reads_nil | apply reads_cons; [eassumption|]].

(** ** What [finalize] writes *)

(** C5.  For every detector of the geometry, the sensitive record that
    [finalize] writes for it reports sizeX = npixelX * pitchX and
    sizeY = npixelY * pitchY (the pixel grid, not the size of the sensor),
    the z extent of the sensor as thickness, pitchX / sqrt(12) as resolution,
    and the rotation block 1.0, 0.0, 0.0, 1.0.  [finalize] does return and
    write that record whenever the LCIO writer is open and the geometry file
    has a name and can be written. *)
Theorem sensitive_record_from_pixel_grid this env w i d :
  lcWriter_ this = Some w ->
  geometry_file_name_ this <> EmptyString ->
  fs_writable env (geometry_file_name_ this) = true ->
  getDetectors (geo_mgr_ this) !! i = Some d ->
  let model := getModel d in
  let sensitive := write_sensitive (id_of (detector_names_to_id_ this) (getName d)) d in
  exists this' env' before after,
    finalize this env = inr (this', env')
    /\ fs_files env' !! geometry_file_name_ this = Some (before ++ sensitive ++ after)
    /\ reads sensitive
         [("sizeX", [Quantity (double_of_unsigned (getNPixels model).1
                               * (getPixelSize model).1)%float "mm"]);
          ("sizeY", [Quantity (double_of_unsigned (getNPixels model).2
                               * (getPixelSize model).2)%float "mm"]);
          ("thickness", [Quantity (vz (getSensorSize model)) "mm"]);
          ("resolution", [Quantity ((getPixelSize model).1 / PrimFloat.sqrt 12)%float "mm"]);
          ("rotation1", str "1.0"); ("rotation2", str "0.0");
          ("rotation3", str "0.0"); ("rotation4", str "1.0")].
Proof.
  intros Hw Hname Hgood Hi model sensitive.
  destruct (finalize_writes this env w Hw Hname Hgood)
    as (this' & env' & Hfinalize & Hfiles & _).
  destruct (geometry_text_layer this i d Hi) as (before & after & Htext).
  exists this', env',
    (before ++ write_ladder (id_of (detector_names_to_id_ this) (getName d)) d), after.
  split; [exact Hfinalize|]. split.
  - rewrite Hfiles, lookup_insert_eq, Htext, <- app_assoc. reflexivity.
  - destruct (write_sensitive_attributes
                (id_of (detector_names_to_id_ this) (getName d)) d)
      as (? & ? & ? & ? & ? & ? & ? & ?).
    read_off.
Qed.

(** C4, as amended.  For every detector of the geometry, the ladder and
    the sensitive record written by [finalize] stand next to each other
    under one id and both carry the fixed radiation length 93.65. *)
Theorem radiation_length_is_fixed this env w i d :
  lcWriter_ this = Some w ->
  geometry_file_name_ this <> EmptyString ->
  fs_writable env (geometry_file_name_ this) = true ->
  getDetectors (geo_mgr_ this) !! i = Some d ->
  let id := id_of (detector_names_to_id_ this) (getName d) in
  exists this' env' before after,
    finalize this env = inr (this', env')
    /\ fs_files env' !! geometry_file_name_ this
       = Some (before ++ write_ladder id d ++ write_sensitive id d ++ after)
    /\ reads (write_ladder id d) [("ID", [Num id]); ("radLength", str "93.65")]
    /\ reads (write_sensitive id d) [("ID", [Num id]); ("radLength", str "93.65")].
Proof.
  intros Hw Hname Hgood Hi id.
  destruct (finalize_writes this env w Hw Hname Hgood)
    as (this' & env' & Hfinalize & Hfiles & _).
  destruct (geometry_text_layer this i d Hi) as (before & after & Htext).
  exists this', env', before, after.
  split; [exact Hfinalize|]. split.
  - rewrite Hfiles, lookup_insert_eq, Htext. reflexivity.
  - pose proof (write_ladder_id id d). pose proof (write_ladder_radLength id d).
    pose proof (write_sensitive_id id d). pose proof (write_sensitive_radLength id d).
    split; read_off.
Qed.

(** C6.  [finalize] writes the field element right after the head of the
    document.  For a constant field it carries the three components of the
    field at the origin, each converted to tesla, and nothing is logged but
    the two status lines; without a field it carries 0.0 three times; for
    any other field type it carries 0.0 three times and a warning is logged
    between the status lines.  In all three cases [finalize] returns. *)
Theorem magnetic_field_element this env w :
  lcWriter_ this = Some w ->
  geometry_file_name_ this <> EmptyString ->
  fs_writable env (geometry_file_name_ this) = true ->
  let geo := geo_mgr_ this in
  let bfield := (write_bfield geo).1 in
  exists this' env' after,
    finalize this env = inr (this', env')
    /\ fs_files env' !! geometry_file_name_ this
       = Some (gear_head this ++ bfield ++ after)
    /\ match getMagneticFieldType geo with
       | CONSTANT =>
           let b_field := getMagneticField geo {| vx := 0; vy := 0; vz := 0 |} in
           reads bfield [("type", str "ConstantBField");
                         ("x", [Quantity (vx b_field) "T"]);
                         ("y", [Quantity (vy b_field) "T"]);
                         ("z", [Quantity (vz b_field) "T"])]
           /\ log env' = log env ++ [wrote_events this; wrote_geometry this]
       | NONE =>
           reads bfield [("type", str "ConstantBField");
                         ("x", str "0.0"); ("y", str "0.0"); ("z", str "0.0")]
           /\ log env' = log env ++ [wrote_events this; wrote_geometry this]
       | OTHER =>
           reads bfield [("type", str "ConstantBField");
                         ("x", str "0.0"); ("y", str "0.0"); ("z", str "0.0")]
           /\ log env'
              = log env ++ [wrote_events this; field_warning; wrote_geometry this]
       end.
Proof.
  intros Hw Hname Hgood geo bfield.
  destruct (finalize_writes this env w Hw Hname Hgood)
    as (this' & env' & Hfinalize & Hfiles & Hlog & _).
  exists this', env', (gear_detectors (length (getDetectors geo))
                        ++ flat_map (fun d => layer_text
                                               (id_of (detector_names_to_id_ this)
                                                  (getName d)) d)
                             (getDetectors geo)
                        ++ gear_tail).
  split; [exact Hfinalize|]. split.
  - rewrite Hfiles, lookup_insert_eq. reflexivity.
  - pose proof (write_bfield_type geo) as Htype.
    unfold warnings_of in Hlog. fold geo in Hlog.
    destruct (getMagneticFieldType geo) eqn:Hfield.
    + destruct (write_bfield_zero geo) as (Hx & Hy & Hz & Hwarning);
        [congruence|].
      rewrite Hfield in Hwarning. rewrite Hwarning in Hlog.
      split; [read_off|exact Hlog].
    + destruct (write_bfield_constant geo Hfield) as (Hx & Hy & Hz & Hwarning).
      rewrite Hwarning in Hlog.
      split; [read_off|exact Hlog].
    + destruct (write_bfield_zero geo) as (Hx & Hy & Hz & Hwarning);
        [congruence|].
      rewrite Hfield in Hwarning. rewrite Hwarning in Hlog.
      split; [read_off|exact Hlog].
Qed.

(** C10.  With an empty geometry file name, [finalize] never throws the
    module error of the geometry file, leaves every file as it was, logs
    the one status line about the events only, and returns whenever the
    LCIO writer is there to be closed. *)
Theorem finalize_without_geometry_file this env :
  geometry_file_name_ this = EmptyString ->
  (forall what, finalize this env <> inl (ModuleError what))
  /\ (forall this' env',
        finalize this env = inr (this', env') ->
        fs_files env' = fs_files env /\ log env' = log env ++ [wrote_events this])
  /\ (forall w, lcWriter_ this = Some w ->
                exists this' env', finalize this env = inr (this', env')).
Proof.
  intros Hname. unfold finalize. rewrite Hname.
  destruct (lcWriter_ this) as [lcWriter|]; cbn [deref bind ok throw String.eqb negb].
  - split; [discriminate|]. split.
    + intros this' env' Hfinalize. inversion Hfinalize; subst. split; reflexivity.
    + intros w _. eexists _, _. reflexivity.
  - split; [discriminate|]. split; [discriminate|]. intros w Hw. discriminate.
Qed.

(** ** What [run] does with a hit *)

(** C8, as amended.  On an initialised module [run] returns for every
    event, also for one whose hits name a detector the registry does not
    hold: no error is signalled, the messages are fetched as they came, and
    the registry is left as it was. *)
Theorem run_checks_no_detector this event writer store :
  writer_ this = Some writer ->
  event_store_ this = Some store ->
  exists locals this',
    run this event = inr (locals, this')
    /\ pixel_messages locals = messages event
    /\ detector_names_to_id_ this' = detector_names_to_id_ this.
Proof.
  intros Hwriter Hstore. unfold run. rewrite Hwriter, Hstore.
  cbn [deref bind ok]. eexists _, _. repeat split.
Qed.

End Properties.

(** * The telescope, run through the module *)

Lemma telescope_lifecycle field :
  (this <- new_PODIOWriterModule telescope_config telescope_messenger
             (telescope_geometry field);;
   initialize this)
  = inr (telescope_module field).
Proof. destruct field; vm_compute; reflexivity. Qed.

(** C1 at the telescope.  The module is constructed, initialised and run
    on the event with one hit at pixel (10, 20) of plane1.  [run] fetches
    the message, and returns with no output collection, an event object
    without collections, and one record in the file that holds no
    collection at all: the hit is encoded nowhere.  It is no different
    when the registry knows plane1 under id 1 and an output collection is
    configured: the collection is created with its encoding and stays
    empty, and the record written holds no collection. *)
Lemma run_writes_no_hit :
  (exists locals this' writer,
     (this <- new_PODIOWriterModule telescope_config telescope_messenger
                (telescope_geometry NONE);;
      this <- initialize this;;
      run this hit_event)
     = inr (locals, this')
     /\ pixel_messages locals
        = [{| msg_detector := "plane1";
              msg_data := [{| hit_x := 10; hit_y := 20; hit_signal := 1 |}] |}]
     /\ output_col_vec locals = []
     /\ evt_collections (evt locals) = []
     /\ writer_ this' = Some writer
     /\ rw_events writer = [[]])
  /\ (exists locals this' writer,
        run telescope_module_registered hit_event = inr (locals, this')
        /\ detector_names_to_id_ telescope_module_registered !! "plane1" = Some 1
        /\ output_col_vec locals
           = [{| col_type := TRACKERDATA;
                 col_parameters := [("CellIDEncoding", "sensorID:7,sparsePixelType:5")];
                 col_elements := [] |}]
        /\ evt_collections (evt locals) = []
        /\ writer_ this' = Some writer
        /\ rw_events writer = [[]]).
Proof.
  split.
  - eexists _, _, _. split; [vm_compute; reflexivity|].
    repeat split; reflexivity.
  - eexists _, _, _. split; [vm_compute; reflexivity|].
    repeat split; reflexivity.
Qed.

(** C2 at a configuration that names both modes.  Both keys are present
    and the constructor returns a module all the same; so does
    [initialize] after it. *)
Lemma both_modes_are_accepted :
  has "output_collection_name" both_modes_config = true
  /\ has "detector_assignment" both_modes_config = true
  /\ succeeds (new_PODIOWriterModule both_modes_config telescope_messenger
                 (telescope_geometry NONE)) = true
  /\ succeeds (this <- new_PODIOWriterModule both_modes_config telescope_messenger
                         (telescope_geometry NONE);;
               initialize this) = true.
Proof. repeat split; vm_compute; reflexivity. Qed.

(** C3 at the telescope.  The module is constructed, initialised and
    finalised on the geometry with plane0 and plane1.  [finalize] writes
    both ladders and both sensitive records under id 0 and leaves both
    names registered with id 0: two detectors, one id. *)
Lemma two_planes_share_one_id :
  exists this' env' text,
    (this <- new_PODIOWriterModule telescope_config telescope_messenger
               (telescope_geometry NONE);;
     this <- initialize this;;
     finalize this telescope_env)
    = inr (this', env')
    /\ fs_files env' !! "telescope_gear.xml" = Some text
    /\ map (attribute "ID") (elements "ladder" text) = [Some [Num 0]; Some [Num 0]]
    /\ map (attribute "ID") (elements "sensitive" text) = [Some [Num 0]; Some [Num 0]]
    /\ detector_names_to_id_ this' !! "plane0" = Some 0
    /\ detector_names_to_id_ this' !! "plane1" = Some 0.
Proof.
  eexists _, _, _.
  split; [vm_compute; reflexivity|].
  split; [vm_compute; reflexivity|].
  repeat split; vm_compute; reflexivity.
Qed.

(** C4 as stated fails at the telescope: in the file written by the
    module, constructed, initialised and finalised, the radiation length of
    every ladder and of every sensitive record reads 93.65, which is not
    94.65. *)
Lemma radiation_length_is_not_94_65 :
  exists this' env' text,
    (this <- new_PODIOWriterModule telescope_config telescope_messenger
               (telescope_geometry NONE);;
     this <- initialize this;;
     finalize this telescope_env)
    = inr (this', env')
    /\ fs_files env' !! "telescope_gear.xml" = Some text
    /\ map (attribute "radLength") (elements "ladder" text)
       = [Some (str "93.65"); Some (str "93.65")]
    /\ map (attribute "radLength") (elements "sensitive" text)
       = [Some (str "93.65"); Some (str "93.65")]
    /\ str "93.65" <> str "94.65".
Proof.
  eexists _, _, _.
  split; [vm_compute; reflexivity|].
  split; [vm_compute; reflexivity|].
  repeat split; try (vm_compute; reflexivity). discriminate.
Qed.

(** The amended C4 at the second plane of the telescope. *)
Lemma radiation_length_of_plane1 :
  exists this' env' before after,
    finalize (telescope_module NONE) telescope_env = inr (this', env')
    /\ fs_files env' !! "telescope_gear.xml"
       = Some (before ++ write_ladder 0 plane1 ++ write_sensitive 0 plane1 ++ after)
    /\ reads (write_ladder 0 plane1) [("ID", [Num 0]); ("radLength", str "93.65")]
    /\ reads (write_sensitive 0 plane1) [("ID", [Num 0]); ("radLength", str "93.65")].
Proof.
  eapply (radiation_length_is_fixed (telescope_module NONE) telescope_env _ 1%nat plane1).
  - reflexivity.
  - discriminate.
  - reflexivity.
  - reflexivity.
Defined.

(** C5 at the second plane of the telescope: 100 pixels of 0.05 are
    reported as 5, where the sensor is 5.2 wide. *)
Lemma sensitive_record_of_plane1 :
  exists this' env' before after,
    finalize (telescope_module NONE) telescope_env = inr (this', env')
    /\ fs_files env' !! "telescope_gear.xml"
       = Some (before ++ write_sensitive 0 plane1 ++ after)
    /\ reads (write_sensitive 0 plane1)
         [("sizeX", [Quantity 5 "mm"]); ("sizeY", [Quantity 5 "mm"]);
          ("thickness", [Quantity 0.3 "mm"]);
          ("resolution", [Quantity 0.014433756729740645 "mm"]);
          ("rotation1", str "1.0"); ("rotation2", str "0.0");
          ("rotation3", str "0.0"); ("rotation4", str "1.0")].
Proof.
  eapply (sensitive_record_from_pixel_grid
            (telescope_module NONE) telescope_env _ 1%nat plane1).
  - reflexivity.
  - discriminate.
  - reflexivity.
  - reflexivity.
Defined.

(** C6 at the telescope, once in a field of a type the module does not
    handle and once in a constant field of 0.001 along z. *)
Lemma field_element_of_the_telescope :
  (exists this' env' after,
     finalize (telescope_module OTHER) telescope_env = inr (this', env')
     /\ fs_files env' !! "telescope_gear.xml"
        = Some (gear_head (telescope_module OTHER)
                  ++ (write_bfield (telescope_geometry OTHER)).1 ++ after)
     /\ reads (write_bfield (telescope_geometry OTHER)).1
          [("type", str "ConstantBField");
           ("x", str "0.0"); ("y", str "0.0"); ("z", str "0.0")]
     /\ log env'
        = [wrote_events (telescope_module OTHER); field_warning;
           wrote_geometry (telescope_module OTHER)])
  /\ (exists this' env' after,
        finalize (telescope_module CONSTANT) telescope_env = inr (this', env')
        /\ fs_files env' !! "telescope_gear.xml"
           = Some (gear_head (telescope_module CONSTANT)
                     ++ (write_bfield (telescope_geometry CONSTANT)).1 ++ after)
        /\ reads (write_bfield (telescope_geometry CONSTANT)).1
             [("type", str "ConstantBField");
              ("x", [Quantity 0 "T"]); ("y", [Quantity 0 "T"]);
              ("z", [Quantity 0.001 "T"])]
        /\ log env'
           = [wrote_events (telescope_module CONSTANT);
              wrote_geometry (telescope_module CONSTANT)]).
Proof.
  split.
  - eapply (magnetic_field_element (telescope_module OTHER) telescope_env).
    + reflexivity.
    + discriminate.
    + reflexivity.
  - eapply (magnetic_field_element (telescope_module CONSTANT) telescope_env).
    + reflexivity.
    + discriminate.
    + reflexivity.
Defined.

(** C8 as stated fails at the telescope: the only hit of [stray_event]
    names plane7, which neither the registry nor the geometry holds, and
    [run], called on the module as constructed and initialised, returns
    without an error. *)
Lemma stray_hit_is_not_rejected :
  exists locals this',
    (this <- new_PODIOWriterModule telescope_config telescope_messenger
               (telescope_geometry NONE);;
     this <- initialize this;;
     run this stray_event)
    = inr (locals, this')
    /\ map msg_detector (pixel_messages locals) = ["plane7"]
    /\ detector_names_to_id_ this' !! "plane7" = None
    /\ map getName (getDetectors (geo_mgr_ this')) = ["plane0"; "plane1"].
Proof.
  eexists _, _. split; [vm_compute; reflexivity|].
  repeat split; vm_compute; reflexivity.
Qed.

(** The amended C8 at the telescope and the stray event. *)
Lemma run_returns_on_stray_event :
  exists locals this',
    run (telescope_module NONE) stray_event = inr (locals, this')
    /\ pixel_messages locals = messages stray_event
    /\ detector_names_to_id_ this' = detector_names_to_id_ (telescope_module NONE).
Proof.
  eapply (run_checks_no_detector (telescope_module NONE) stray_event).
  - reflexivity.
  - reflexivity.
Defined.

(** C9 at the telescope, whose configuration sets [dump_mc_truth].  After
    construction, initialisation and one call of [run] the flag is set, the
    four Monte-Carlo collections are null pointers, and the record written
    holds no collection. *)
Lemma truth_dump_allocates_nothing :
  exists locals this' writer,
    (this <- new_PODIOWriterModule telescope_config telescope_messenger
               (telescope_geometry NONE);;
     this <- initialize this;;
     run this hit_event)
    = inr (locals, this')
    /\ dump_mc_truth_ this' = true
    /\ mc_cluster_vec locals = None
    /\ mc_cluster_raw_vec locals = None
    /\ mc_hit_vec locals = None
    /\ mc_track_vec locals = None
    /\ writer_ this' = Some writer
    /\ rw_events writer = [[]].
Proof.
  eexists _, _, _. split; [vm_compute; reflexivity|].
  repeat split; reflexivity.
Qed.

(** C10 at the telescope with no name for its geometry file. *)
Lemma finalize_telescope_without_geometry_file :
  geometry_file_name_ (telescope_module_at EmptyString NONE) = EmptyString
  /\ (forall what,
        finalize (telescope_module_at EmptyString NONE) telescope_env
        <> inl (ModuleError what))
  /\ (forall this' env',
        finalize (telescope_module_at EmptyString NONE) telescope_env = inr (this', env') ->
        fs_files env' = fs_files telescope_env
        /\ log env' = log telescope_env
                        ++ [wrote_events (telescope_module_at EmptyString NONE)])
  /\ (forall w, lcWriter_ (telescope_module_at EmptyString NONE) = Some w ->
                exists this' env',
                  finalize (telescope_module_at EmptyString NONE) telescope_env
                  = inr (this', env')).
Proof.
  split; [reflexivity|].
  apply (finalize_without_geometry_file (telescope_module_at EmptyString NONE)).
  reflexivity.
Defined.

(** * The entry points one after the other *)

Section Lifecycle.

Context `{Framework}.

(** ** What each entry point leaves alone *)

Lemma constructor_state config messenger geo this :
  new_PODIOWriterModule config messenger geo = inr this ->
  config_ this = setDefault "file_name" "output.edm4allpix.root" config
  /\ geo_mgr_ this = geo
  /\ config !! "detector_name" = Some (CfgString (detector_name_ this)).
Proof.
  unfold new_PODIOWriterModule, get_int, get_string, get_bool. intros Hnew.
  rewrite !setDefault_lookup_ne in Hnew by discriminate.
  destruct (config !! "pixel_type") as [[]|]; try discriminate.
  destruct (config !! "detector_name") as [[]|]; try discriminate.
  destruct (config !! "dump_mc_truth") as [[]|]; try discriminate.
  cbn [bind ok] in Hnew. inversion Hnew; subst. repeat split.
Qed.

Lemma initialize_state this this' :
  initialize this = inr this' ->
  exists geometry_file file_name,
    config_ this !! "geometry_file" = Some (CfgString geometry_file)
    /\ config_ this !! "file_name" = Some (CfgString file_name)
    /\ this'
       = {| config_ := config_ this;
            messenger_ := messenger_ this;
            geo_mgr_ := geo_mgr_ this;
            pixel_type_ := pixel_type_ this;
            detector_name_ := detector_name_ this;
            dump_mc_truth_ := dump_mc_truth_ this;
            geometry_file_name_ := createOutputFile geometry_file "xml";
            lcio_file_name_ := createOutputFile file_name "slcio";
            lcWriter_ :=
              Some {| lc_file := Some (createOutputFile file_name "slcio");
                      lc_run_headers :=
                        [{| hdr_runNumber := 1;
                            hdr_detectorName := detector_name_ this |}];
                      lc_events := [];
                      lc_closed := false |};
            event_store_ := Some new_EventStore;
            writer_ := Some (new_ROOTWriter "output.root");
            collection_names_vector_ := collection_names_vector_ this;
            detector_names_to_id_ := detector_names_to_id_ this;
            write_cnt_ := write_cnt_ this |}.
Proof.
  unfold initialize, get_string. intros Hinit.
  destruct (config_ this !! "geometry_file") as [[| |geometry_file]|]; try discriminate.
  destruct (config_ this !! "file_name") as [[| |file_name]|]; try discriminate.
  cbn [bind ok] in Hinit. inversion Hinit; subst.
  exists geometry_file, file_name. repeat split.
Qed.

(** [run] replaces the ROOT writer and the event store and nothing else. *)
Lemma run_state this event locals this' :
  run this event = inr (locals, this') ->
  exists writer store,
    writer_ this = Some writer /\ event_store_ this = Some store
    /\ this'
       = {| config_ := config_ this;
            messenger_ := messenger_ this;
            geo_mgr_ := geo_mgr_ this;
            pixel_type_ := pixel_type_ this;
            detector_name_ := detector_name_ this;
            dump_mc_truth_ := dump_mc_truth_ this;
            geometry_file_name_ := geometry_file_name_ this;
            lcio_file_name_ := lcio_file_name_ this;
            lcWriter_ := lcWriter_ this;
            event_store_ := Some (clear store);
            writer_ := Some (writeEvent store writer);
            collection_names_vector_ := collection_names_vector_ this;
            detector_names_to_id_ := detector_names_to_id_ this;
            write_cnt_ := write_cnt_ this |}.
Proof.
  unfold run. intros Hrun.
  destruct (writer_ this) as [writer|]; [|discriminate].
  destruct (event_store_ this) as [store|]; [|discriminate].
  cbn [deref bind ok] in Hrun. inversion Hrun; subst.
  exists writer, store. repeat split.
Qed.

(** With its two pointers set, [run] returns. *)
Lemma run_returns this event writer store :
  writer_ this = Some writer ->
  event_store_ this = Some store ->
  exists locals this', run this event = inr (locals, this').
Proof.
  intros Hwriter Hstore. unfold run. rewrite Hwriter, Hstore.
  cbn [deref bind ok]. eexists _, _. reflexivity.
Qed.

(** An empty store is written as a record without collections. *)
Lemma writeEvent_empty store writer :
  es_collections store = [] ->
  writeEvent store writer
  = {| rw_filename := rw_filename writer;
       rw_registered := rw_registered writer;
       rw_events := rw_events writer ++ [[]] |}.
Proof. intros Hempty. unfold writeEvent. rewrite Hempty. reflexivity. Qed.

(** The loop over the events, started on an empty store: it returns, the
    ROOT writer has one more empty record per event, and everything but
    the writer and the store is as before. *)
Lemma run_events_state events : forall this writer,
  writer_ this = Some writer ->
  event_store_ this = Some new_EventStore ->
  run_events this events
  = inr {| config_ := config_ this;
           messenger_ := messenger_ this;
           geo_mgr_ := geo_mgr_ this;
           pixel_type_ := pixel_type_ this;
           detector_name_ := detector_name_ this;
           dump_mc_truth_ := dump_mc_truth_ this;
           geometry_file_name_ := geometry_file_name_ this;
           lcio_file_name_ := lcio_file_name_ this;
           lcWriter_ := lcWriter_ this;
           event_store_ := Some new_EventStore;
           writer_ :=
             Some {| rw_filename := rw_filename writer;
                     rw_registered := rw_registered writer;
                     rw_events := rw_events writer ++ replicate (length events) [] |};
           collection_names_vector_ := collection_names_vector_ this;
           detector_names_to_id_ := detector_names_to_id_ this;
           write_cnt_ := write_cnt_ this |}.
Proof.
  induction events as [|event rest IH]; intros this writer Hwriter Hstore.
  - cbn [run_events length replicate ok]. rewrite app_nil_r.
    destruct this, writer. cbn in *. subst. reflexivity.
  - cbn [run_events].
    destruct (run_returns this event writer new_EventStore Hwriter Hstore)
      as (locals & this' & Hrun).
    rewrite Hrun. cbn [bind snd].
    destruct (run_state this event locals this' Hrun)
      as (writer0 & store0 & Hw0 & Hs0 & ->).
    rewrite Hwriter in Hw0. rewrite Hstore in Hs0.
    inversion Hw0; inversion Hs0; subst.
    rewrite (IH _ (writeEvent new_EventStore writer0)) by reflexivity.
    cbn [config_ messenger_ geo_mgr_ pixel_type_ detector_name_ dump_mc_truth_
         geometry_file_name_ lcio_file_name_ lcWriter_ collection_names_vector_
         detector_names_to_id_ write_cnt_ writeEvent new_EventStore es_collections
         rw_filename rw_registered rw_events length replicate].
    rewrite <- app_assoc. reflexivity.
Qed.

(** [finalize], when it returns, has closed the LCIO writer, has logged
    the line about the events first, and has changed nothing else of the
    module but the registry. *)
Lemma finalize_state this env this' env' :
  finalize this env = inr (this', env') ->
  exists w,
    lcWriter_ this = Some w
    /\ this'
       = set_lcWriter (lc_close w)
           (if String.eqb (geometry_file_name_ this) EmptyString
            then detector_names_to_id_ this
            else (write_geometry this).1.2)
           this
    /\ exists rest, log env' = log env ++ wrote_events this :: rest.
Proof.
  unfold finalize. intros Hfinalize.
  destruct (lcWriter_ this) as [w|]; [|discriminate].
  cbn [deref bind ok] in Hfinalize. exists w. split; [reflexivity|].
  destruct (String.eqb (geometry_file_name_ this) EmptyString); cbn [negb] in Hfinalize.
  - inversion Hfinalize; subst. split; [reflexivity|]. exists []. reflexivity.
  - cbn [LOG fs_writable] in Hfinalize.
    destruct (fs_writable env (geometry_file_name_ this)); [|discriminate].
    cbn [negb] in Hfinalize.
    destruct (write_geometry this) as [[text registry] warning].
    inversion Hfinalize; subst. split; [reflexivity|].
    destruct warning; eexists; cbn [log LOG write_file]; rewrite <- !app_assoc;
      reflexivity.
Qed.

(** ** The registry after the loop over the detectors *)

Lemma registry_index_lookup name (registry : gmap string Z) k :
  (registry_index name registry).2 !! k
  = match registry !! k with
    | Some id => Some id
    | None => if decide (k = name) then Some 0 else None
    end.
Proof.
  unfold registry_index.
  destruct (registry !! name) eqn:Hname; cbn [snd].
  - destruct (registry !! k) eqn:Hk; [reflexivity|].
    destruct (decide (k = name)) as [->|]; [congruence|reflexivity].
  - destruct (decide (k = name)) as [->|Hne].
    + rewrite lookup_insert_eq, Hname. reflexivity.
    + rewrite lookup_insert_ne by congruence. destruct (registry !! k); reflexivity.
Qed.

Lemma write_layer_lookup registry detector k :
  (write_layer registry detector).2 !! k
  = match registry !! k with
    | Some id => Some id
    | None => if decide (k = getName detector) then Some 0 else None
    end.
Proof.
  unfold write_layer.
  pose proof (registry_index_lookup (getName detector) registry k) as H1.
  destruct (registry_index (getName detector) registry) as [ladder_id registry1].
  pose proof (registry_index_lookup (getName detector) registry1 k) as H2.
  destruct (registry_index (getName detector) registry1) as [sensitive_id registry2].
  cbn [snd] in *. rewrite H2, H1.
  destruct (registry !! k); [reflexivity|].
  destruct (decide (k = getName detector)); reflexivity.
Qed.

Lemma write_layers_lookup detectors : forall registry k,
  (write_layers registry detectors).2 !! k
  = match registry !! k with
    | Some id => Some id
    | None => if decide (k ∈ map getName detectors) then Some 0 else None
    end.
Proof.
  induction detectors as [|detector rest IH]; intros registry k; cbn [write_layers map].
  - cbn [snd]. destruct (registry !! k); [reflexivity|].
    destruct (decide (k ∈ [])) as [Hin|]; [|reflexivity].
    apply elem_of_nil in Hin. contradiction.
  - pose proof (write_layer_lookup registry detector k) as Hlayer.
    destruct (write_layer registry detector) as [layer registry1].
    specialize (IH registry1 k).
    destruct (write_layers registry1 rest) as [layers registry2].
    cbn [snd] in *. rewrite IH, Hlayer.
    destruct (registry !! k); [reflexivity|].
    destruct (decide (k = getName detector)) as [->|Hne].
    + destruct (decide (_ ∈ _ :: _)) as [|Hnot]; [reflexivity|].
      exfalso. apply Hnot. apply elem_of_cons. left. reflexivity.
    + destruct (decide (k ∈ map getName rest)) as [Hin|Hnin];
        destruct (decide (k ∈ getName detector :: map getName rest)) as [Hin'|Hnin'];
        try reflexivity.
      * exfalso. apply Hnin'. apply elem_of_cons. right. exact Hin.
      * exfalso. apply elem_of_cons in Hin'. destruct Hin'; contradiction.
Qed.

Lemma write_geometry_lookup this k :
  (write_geometry this).1.2 !! k
  = match detector_names_to_id_ this !! k with
    | Some id => Some id
    | None =>
        if decide (k ∈ map getName (getDetectors (geo_mgr_ this))) then Some 0 else None
    end.
Proof.
  unfold write_geometry.
  destruct (write_bfield (geo_mgr_ this)) as [bfield warning].
  pose proof (write_layers_lookup (getDetectors (geo_mgr_ this))
                (detector_names_to_id_ this) k) as Hlookup.
  destruct (write_layers (detector_names_to_id_ this) (getDetectors (geo_mgr_ this))).
  exact Hlookup.
Qed.

(** ** The constructor and [initialize] *)


(** X2.  The key [geometry_file] has no default: on a module constructed
    from a configuration without it, [initialize] throws the missing-key
    error for [geometry_file]. *)
Theorem initialize_needs_geometry_file config messenger geo this :
  new_PODIOWriterModule config messenger geo = inr this ->
  config !! "geometry_file" = None ->
  initialize this = inl (MissingKeyError "geometry_file").
Proof.
  intros Hnew Hmissing.
  destruct (constructor_state config messenger geo this Hnew) as (Hconfig & _).
  unfold initialize, get_string.
  rewrite Hconfig, setDefault_lookup_ne by discriminate.
  rewrite Hmissing. reflexivity.
Qed.

(** X3.  On a module constructed from a configuration with a
    [geometry_file], [initialize] returns; the geometry file is that name
    resolved with the extension xml, the LCIO file is [file_name], or
    output.edm4allpix.root when the key is absent, resolved with the
    extension slcio, and the ROOT writer is opened on output.root whatever
    [file_name] says. *)
Theorem initialize_resolves_file_names config messenger geo this geometry_file file :
  new_PODIOWriterModule config messenger geo = inr this ->
  config !! "geometry_file" = Some (CfgString geometry_file) ->
  config !! "file_name" = CfgString <$> file ->
  exists this',
    initialize this = inr this'
    /\ geometry_file_name_ this' = createOutputFile geometry_file "xml"
    /\ lcio_file_name_ this'
       = createOutputFile (default "output.edm4allpix.root" file) "slcio"
    /\ (lc_file <$> lcWriter_ this') = Some (Some (lcio_file_name_ this'))
    /\ (rw_filename <$> writer_ this') = Some "output.root".
Proof.
  intros Hnew Hgeometry Hfile.
  destruct (constructor_state config messenger geo this Hnew) as (Hconfig & _).
  unfold initialize, get_string.
  rewrite Hconfig, setDefault_lookup_ne by discriminate.
  rewrite Hgeometry. cbn [bind ok].
  assert (setDefault "file_name" "output.edm4allpix.root" config !! "file_name"
          = Some (CfgString (default "output.edm4allpix.root" file))) as ->.
  { unfold setDefault, has. destruct file as [f|]; cbn [fmap option_fmap option_map default] in *.
    - rewrite bool_decide_eq_true_2 by (rewrite Hfile; eexists; reflexivity).
      exact Hfile.
    - rewrite bool_decide_eq_false_2 by (rewrite Hfile; apply is_Some_None).
      apply lookup_insert_eq. }
  cbn [bind ok]. eexists. repeat split.
Qed.

(** ** The events *)

(** X4.  After [initialize], the loop over any list of events returns.
    The ROOT writer then holds one record per event and none of them holds
    a collection; the LCIO writer has been handed no event, and the event
    counter and the registry are as the constructor left them. *)
Theorem one_empty_record_per_event this0 this events :
  initialize this0 = inr this ->
  exists this',
    run_events this events = inr this'
    /\ (rw_events <$> writer_ this') = Some (replicate (length events) [])
    /\ event_store_ this' = Some new_EventStore
    /\ lcWriter_ this' = lcWriter_ this
    /\ (lc_events <$> lcWriter_ this') = Some []
    /\ write_cnt_ this' = write_cnt_ this0
    /\ detector_names_to_id_ this' = detector_names_to_id_ this0.
Proof.
  intros Hinit.
  destruct (initialize_state this0 this Hinit) as (g & f & _ & _ & ->).
  eexists. split.
  - apply (run_events_state events _ (new_ROOTWriter "output.root")); reflexivity.
  - repeat split.
Qed.

(** X5.  The event number given to the event object is the number of the
    event cut to 32 bits and read as a signed number: it lies in the range
    of [int], differs from the number by a multiple of 2^32, and is the
    number itself below 2^31.  The run number is 1 and the event type 2. *)
Theorem event_number_is_cut_to_int this event locals this' :
  run this event = inr (locals, this') ->
  evt_runNumber (evt locals) = 1
  /\ evt_parameters (evt locals) = [("EventType", 2)]
  /\ - 2 ^ 31 <= evt_eventNumber (evt locals) < 2 ^ 31
  /\ (evt_eventNumber (evt locals) - number event) mod 2 ^ 32 = 0
  /\ (0 <= number event < 2 ^ 31 -> evt_eventNumber (evt locals) = number event).
Proof.
  unfold run. intros Hrun.
  destruct (writer_ this) as [writer|]; [|discriminate].
  destruct (event_store_ this) as [store|]; [|discriminate].
  cbn [deref bind ok] in Hrun. inversion Hrun; subst. clear Hrun.
  cbn [evt evt_runNumber evt_parameters evt_eventNumber setValue setEventNumber
       setRunNumber new_LCEventImpl app].
  unfold to_int.
  pose proof (Z.mod_pos_bound (number event + 2 ^ 31) (2 ^ 32) ltac:(lia)) as Hbound.
  repeat split; try lia.
  - rewrite (Z.mod_eq (number event + 2 ^ 31) (2 ^ 32)) by lia.
    replace (number event + 2 ^ 31
             - 2 ^ 32 * ((number event + 2 ^ 31) / 2 ^ 32) - 2 ^ 31 - number event)
      with (- ((number event + 2 ^ 31) / 2 ^ 32) * 2 ^ 32) by lia.
    apply Z_mod_mult.
  - intros Hsmall. rewrite Z.mod_small by lia. lia.
Qed.


(** ** [finalize] *)

Lemma finalize_returns_writable this env this' env' :
  finalize this env = inr (this', env') ->
  geometry_file_name_ this <> EmptyString ->
  fs_writable env (geometry_file_name_ this) = true.
Proof.
  unfold finalize. intros Hfinalize Hname.
  destruct (lcWriter_ this) as [w|]; [|discriminate].
  cbn [deref bind ok] in Hfinalize.
  destruct (String.eqb (geometry_file_name_ this) EmptyString) eqn:Heq.
  { apply String.eqb_eq in Heq. contradiction. }
  cbn [negb LOG fs_writable] in Hfinalize.
  destruct (fs_writable env (geometry_file_name_ this)); [reflexivity|discriminate].
Qed.

(** The text depends on the module through the geometry, the detector
    name and the ids of the registry only. *)
Lemma geometry_text_ext this other :
  geo_mgr_ other = geo_mgr_ this ->
  detector_name_ other = detector_name_ this ->
  (forall k, id_of (detector_names_to_id_ other) k
             = id_of (detector_names_to_id_ this) k) ->
  geometry_text other = geometry_text this.
Proof.
  intros Hgeo Hname Hids. unfold geometry_text, gear_head. cbv zeta.
  rewrite Hgeo, Hname.
  rewrite (flat_map_ext
             (fun d => layer_text (id_of (detector_names_to_id_ other) (getName d)) d)
             (fun d => layer_text (id_of (detector_names_to_id_ this) (getName d)) d));
    [reflexivity|].
  intros d. rewrite Hids. reflexivity.
Qed.

Lemma gear_detectors_attributes n :
  reads (gear_detectors n)
    [("name", str "SiPlanes"); ("geartype", str "SiPlanesParameters");
     ("type", str "TelescopeWithoutDUT");
     ("number", [Num (Z.of_nat n)]); ("ID", [Num 0])].
Proof.
  repeat (apply reads_cons; [vm_compute; reflexivity|]). apply reads_nil.
Qed.

Lemma write_ladder_attributes id d :
  let position := getPosition d in
  let total_size := getSize (getModel d) in
  let angles := getRotationAnglesFromMatrix (getOrientation d) in
  reads (write_ladder id d)
    [("ID", [Num id]);
     ("positionX", [Quantity (vx position) "mm"]);
     ("positionY", [Quantity (vy position) "mm"]);
     ("positionZ", [Quantity (vz position) "mm"]);
     ("rotationZY", [Quantity (- angles.1.1)%float "deg"]);
     ("rotationZX", [Quantity (- angles.1.2)%float "deg"]);
     ("rotationXY", [Quantity (- angles.2)%float "deg"]);
     ("sizeX", [Quantity (vx total_size) "mm"]);
     ("sizeY", [Quantity (vy total_size) "mm"]);
     ("thickness", [Quantity (vz total_size) "mm"])].
Proof.
  unfold write_ladder. cbv zeta.
  destruct (getRotationAnglesFromMatrix (getOrientation d)) as [[zy zx] xy'].
  destruct d as [name type [px py pz] orientation [[nx ny] [pitchx pitchy] [sx sy sz] sensor]].
  repeat (apply reads_cons; [vm_compute; reflexivity|]). apply reads_nil.
Qed.

Lemma write_sensitive_grid id d :
  let position := getPosition d in
  let model := getModel d in
  reads (write_sensitive id d)
    [("ID", [Num id]);
     ("positionX", [Quantity (vx position) "mm"]);
     ("positionY", [Quantity (vy position) "mm"]);
     ("positionZ", [Quantity (vz position) "mm"]);
     ("npixelX", [Num (getNPixels model).1]);
     ("npixelY", [Num (getNPixels model).2]);
     ("pitchX", [Quantity (getPixelSize model).1 "mm"]);
     ("pitchY", [Quantity (getPixelSize model).2 "mm"])].
Proof.
  cbv zeta.
  destruct d as [name type [px py pz] orientation [[nx ny] [pitchx pitchy] size sensor]].
  repeat (apply reads_cons; [vm_compute; reflexivity|]). apply reads_nil.
Qed.

(** X7.  [finalize] throws a module error in one case only: the LCIO
    writer is there, the geometry file has a name, and the file cannot be
    opened for writing; the message is the one about the GEAR geometry
    file. *)
Theorem geometry_file_error this env what :
  finalize this env = inl (ModuleError what)
  <-> is_Some (lcWriter_ this)
      /\ geometry_file_name_ this <> EmptyString
      /\ fs_writable env (geometry_file_name_ this) = false
      /\ what = "Cannot write to GEAR geometry file".
Proof.
  unfold finalize. split.
  - intros Hthrown.
    destruct (lcWriter_ this) as [w|]; [|discriminate].
    cbn [deref bind ok] in Hthrown.
    destruct (String.eqb (geometry_file_name_ this) EmptyString) eqn:Heq;
      [discriminate|].
    apply String.eqb_neq in Heq. cbn [negb LOG fs_writable] in Hthrown.
    destruct (fs_writable env (geometry_file_name_ this)) eqn:Hgood; cbn [negb] in Hthrown.
    + destruct (write_geometry this) as [[text registry] warning]. discriminate.
    + inversion Hthrown. repeat split; [eexists; reflexivity|exact Heq].
  - intros ([w Hw] & Hname & Hgood & ->).
    rewrite Hw. cbn [deref bind ok].
    apply String.eqb_neq in Hname. rewrite Hname.
    cbn [negb LOG fs_writable]. rewrite Hgood. reflexivity.
Qed.

(** X8.  The geometry file is, in this order: the head with the detector
    name, the field element, the SiPlanes header, whose plane count is the
    number of detectors and whose id is 0, one layer per detector in the
    order of [getDetectors], each made of the opening comment, the ladder
    and the sensitive record, and the closing tags.  No other file is
    touched. *)
Theorem one_layer_per_detector this env w :
  lcWriter_ this = Some w ->
  geometry_file_name_ this <> EmptyString ->
  fs_writable env (geometry_file_name_ this) = true ->
  let detectors := getDetectors (geo_mgr_ this) in
  let id := fun d => id_of (detector_names_to_id_ this) (getName d) in
  exists this' env',
    finalize this env = inr (this', env')
    /\ fs_files env' !! geometry_file_name_ this
       = Some (gear_head this
                 ++ (write_bfield (geo_mgr_ this)).1
                 ++ gear_detectors (length detectors)
                 ++ flat_map
                      (fun d => layer_open d ++ write_ladder (id d) d
                                  ++ write_sensitive (id d) d ++ layer_close)
                      detectors
                 ++ gear_tail)
    /\ reads (gear_detectors (length detectors))
         [("name", str "SiPlanes"); ("geartype", str "SiPlanesParameters");
          ("type", str "TelescopeWithoutDUT");
          ("number", [Num (Z.of_nat (length detectors))]); ("ID", [Num 0])]
    /\ (forall path, path <> geometry_file_name_ this ->
                     fs_files env' !! path = fs_files env !! path).
Proof.
  intros Hw Hname Hgood detectors id.
  destruct (finalize_writes this env w Hw Hname Hgood)
    as (this' & env' & Hfinalize & Hfiles & _).
  exists this', env'. split; [exact Hfinalize|].
  split; [|split].
  - rewrite Hfiles, lookup_insert_eq. reflexivity.
  - apply gear_detectors_attributes.
  - intros path Hpath. rewrite Hfiles. apply lookup_insert_ne. congruence.
Qed.

(** X9.  The ladder written for a detector carries the id of the
    detector, its position in mm, the three angles of its orientation, each
    negated and in degrees, as rotationZY, rotationZX and rotationXY, and
    the full size of the assembly, z as thickness. *)
Theorem ladder_record_of_the_assembly this env w i d :
  lcWriter_ this = Some w ->
  geometry_file_name_ this <> EmptyString ->
  fs_writable env (geometry_file_name_ this) = true ->
  getDetectors (geo_mgr_ this) !! i = Some d ->
  let id := id_of (detector_names_to_id_ this) (getName d) in
  let angles := getRotationAnglesFromMatrix (getOrientation d) in
  exists this' env' before after,
    finalize this env = inr (this', env')
    /\ fs_files env' !! geometry_file_name_ this
       = Some (before ++ write_ladder id d ++ after)
    /\ reads (write_ladder id d)
         [("ID", [Num id]);
          ("positionX", [Quantity (vx (getPosition d)) "mm"]);
          ("positionY", [Quantity (vy (getPosition d)) "mm"]);
          ("positionZ", [Quantity (vz (getPosition d)) "mm"]);
          ("rotationZY", [Quantity (- angles.1.1)%float "deg"]);
          ("rotationZX", [Quantity (- angles.1.2)%float "deg"]);
          ("rotationXY", [Quantity (- angles.2)%float "deg"]);
          ("sizeX", [Quantity (vx (getSize (getModel d))) "mm"]);
          ("sizeY", [Quantity (vy (getSize (getModel d))) "mm"]);
          ("thickness", [Quantity (vz (getSize (getModel d))) "mm"])].
Proof.
  intros Hw Hname Hgood Hi id angles.
  destruct (finalize_writes this env w Hw Hname Hgood)
    as (this' & env' & Hfinalize & Hfiles & _).
  destruct (geometry_text_layer this i d Hi) as (before & after & Htext).
  exists this', env', before, (write_sensitive id d ++ after).
  split; [exact Hfinalize|]. split.
  - rewrite Hfiles, lookup_insert_eq, Htext. reflexivity.
  - apply write_ladder_attributes.
Qed.

(** X10.  The sensitive record written for a detector carries the same
    id and the same position as its ladder, the pixel counts as npixelX
    and npixelY, and the pitch in mm as pitchX and pitchY. *)
Theorem sensitive_record_of_the_grid this env w i d :
  lcWriter_ this = Some w ->
  geometry_file_name_ this <> EmptyString ->
  fs_writable env (geometry_file_name_ this) = true ->
  getDetectors (geo_mgr_ this) !! i = Some d ->
  let id := id_of (detector_names_to_id_ this) (getName d) in
  exists this' env' before after,
    finalize this env = inr (this', env')
    /\ fs_files env' !! geometry_file_name_ this
       = Some (before ++ write_ladder id d ++ write_sensitive id d ++ after)
    /\ reads (write_sensitive id d)
         [("ID", [Num id]);
          ("positionX", [Quantity (vx (getPosition d)) "mm"]);
          ("positionY", [Quantity (vy (getPosition d)) "mm"]);
          ("positionZ", [Quantity (vz (getPosition d)) "mm"]);
          ("npixelX", [Num (getNPixels (getModel d)).1]);
          ("npixelY", [Num (getNPixels (getModel d)).2]);
          ("pitchX", [Quantity (getPixelSize (getModel d)).1 "mm"]);
          ("pitchY", [Quantity (getPixelSize (getModel d)).2 "mm"])].
Proof.
  intros Hw Hname Hgood Hi id.
  destruct (finalize_writes this env w Hw Hname Hgood)
    as (this' & env' & Hfinalize & Hfiles & _).
  destruct (geometry_text_layer this i d Hi) as (before & after & Htext).
  exists this', env', before, after.
  split; [exact Hfinalize|]. split.
  - rewrite Hfiles, lookup_insert_eq, Htext. reflexivity.
  - apply write_sensitive_grid.
Qed.

(** X11.  Writing the geometry file enters every detector of the
    geometry that the registry does not hold, under id 0; an id the
    registry holds is never changed, and no other name is entered. *)
Theorem finalize_registers_detectors this env this' env' :
  finalize this env = inr (this', env') ->
  geometry_file_name_ this <> EmptyString ->
  forall name,
    detector_names_to_id_ this' !! name
    = match detector_names_to_id_ this !! name with
      | Some id => Some id
      | None =>
          if decide (name ∈ map getName (getDetectors (geo_mgr_ this)))
          then Some 0 else None
      end.
Proof.
  intros Hfinalize Hname name.
  destruct (finalize_state this env this' env' Hfinalize) as (w & _ & -> & _).
  apply String.eqb_neq in Hname. rewrite Hname.
  cbn [set_lcWriter detector_names_to_id_].
  apply write_geometry_lookup.
Qed.

(** X12.  Finalising a second time writes the same geometry file: the
    ids entered by the first call do not change the text. *)
Theorem finalize_twice_same_file this env this' env' env2 :
  finalize this env = inr (this', env') ->
  geometry_file_name_ this <> EmptyString ->
  fs_writable env2 (geometry_file_name_ this) = true ->
  exists this'' env2',
    finalize this' env2 = inr (this'', env2')
    /\ fs_files env2' !! geometry_file_name_ this
       = fs_files env' !! geometry_file_name_ this.
Proof.
  intros Hfinalize Hname Hgood2.
  pose proof (finalize_returns_writable this env this' env' Hfinalize Hname) as Hgood.
  destruct (finalize_state this env this' env' Hfinalize) as (w & Hw & Hthis' & _).
  destruct (finalize_writes this env w Hw Hname Hgood)
    as (this1 & env1 & Hfinalize1 & Hfiles & _ & Hids).
  rewrite Hfinalize in Hfinalize1. inversion Hfinalize1; subst this1 env1.
  assert (geometry_file_name_ this' = geometry_file_name_ this) as Hsame
    by (rewrite Hthis'; reflexivity).
  destruct (finalize_writes this' env2 (lc_close w)) as (this'' & env2' & Hfinalize2 & Hfiles2 & _).
  { rewrite Hthis'. reflexivity. }
  { rewrite Hsame. exact Hname. }
  { rewrite Hsame. exact Hgood2. }
  exists this'', env2'. split; [exact Hfinalize2|].
  rewrite Hfiles2, Hfiles, Hsame, !lookup_insert_eq. f_equal.
  apply geometry_text_ext.
  - rewrite Hthis'. reflexivity.
  - rewrite Hthis'. reflexivity.
  - exact Hids.
Qed.

(** X13.  From the constructor to [finalize]: however many events are
    run in between, the LCIO writer ends closed on the LCIO file with the
    one run header (run 1, the detector name of the configuration) and no
    event, the ROOT writer holds one empty record per event, and the first
    line logged by [finalize] reports the event counter as the constructor
    set it. *)
Theorem lifecycle_end_state config messenger geo this0 this1 events :
  new_PODIOWriterModule config messenger geo = inr this0 ->
  initialize this0 = inr this1 ->
  exists this2,
    run_events this1 events = inr this2
    /\ forall env this3 env',
         finalize this2 env = inr (this3, env') ->
         lcWriter_ this3
         = Some {| lc_file := Some (lcio_file_name_ this1);
                   lc_run_headers :=
                     [{| hdr_runNumber := 1;
                         hdr_detectorName := detector_name_ this0 |}];
                   lc_events := [];
                   lc_closed := true |}
         /\ config !! "detector_name" = Some (CfgString (detector_name_ this0))
         /\ (rw_events <$> writer_ this3) = Some (replicate (length events) [])
         /\ exists rest,
              log env'
              = log env
                  ++ (STATUS, str "Wrote " ++ [Num (write_cnt_ this0)]
                                ++ str " events to file:" ++ endl
                                ++ str (lcio_file_name_ this1)) :: rest.
Proof.
  intros Hnew Hinit.
  destruct (constructor_state config messenger geo this0 Hnew) as (_ & _ & Hdetector).
  destruct (initialize_state this0 this1 Hinit) as (g & f & _ & _ & ->).
  eexists. split.
  - apply (run_events_state events _ (new_ROOTWriter "output.root")); reflexivity.
  - intros env this3 env' Hfinalize.
    destruct (finalize_state _ env this3 env' Hfinalize) as (w & Hw & -> & rest & Hlog).
    cbn [lcWriter_] in Hw. inversion Hw; subst w. clear Hw.
    split; [reflexivity|]. split; [exact Hdetector|]. split; [reflexivity|].
    exists rest. exact Hlog.
Qed.

End Lifecycle.

(** * The telescope, from the constructor to [finalize] *)

(** X2 at the configuration of the telescope without [geometry_file]. *)
Lemma initialize_without_geometry_file :
  exists this,
    new_PODIOWriterModule config_without_geometry_file telescope_messenger
      (telescope_geometry NONE) = inr this
    /\ config_without_geometry_file !! "geometry_file" = None
    /\ initialize this = inl (MissingKeyError "geometry_file").
Proof.
  eexists. split; [vm_compute; reflexivity|]. split; [vm_compute; reflexivity|].
  apply (initialize_needs_geometry_file config_without_geometry_file
           telescope_messenger (telescope_geometry NONE)).
  - vm_compute. reflexivity.
  - vm_compute. reflexivity.
Defined.

(** X3 at the configuration of the telescope, which names its geometry
    file and leaves [file_name] to its default. *)
Lemma telescope_file_names :
  new_PODIOWriterModule telescope_config telescope_messenger (telescope_geometry NONE)
  = inr telescope_constructed
  /\ telescope_config !! "file_name" = None
  /\ exists this',
       initialize telescope_constructed = inr this'
       /\ geometry_file_name_ this' = "telescope_gear.xml"
       /\ lcio_file_name_ this' = "output.edm4allpix.root.slcio"
       /\ (lc_file <$> lcWriter_ this') = Some (Some (lcio_file_name_ this'))
       /\ (rw_filename <$> writer_ this') = Some "output.root".
Proof.
  split; [vm_compute; reflexivity|]. split; [vm_compute; reflexivity|].
  exact (initialize_resolves_file_names telescope_config telescope_messenger
           (telescope_geometry NONE) telescope_constructed "telescope_gear" None
           ltac:(vm_compute; reflexivity) ltac:(vm_compute; reflexivity)
           ltac:(vm_compute; reflexivity)).
Defined.

(** X4 at the telescope and two events. *)
Lemma telescope_two_events :
  initialize telescope_constructed = inr (telescope_module NONE)
  /\ exists this',
       run_events (telescope_module NONE) [hit_event; stray_event] = inr this'
       /\ (rw_events <$> writer_ this') = Some [[]; []]
       /\ event_store_ this' = Some new_EventStore
       /\ lcWriter_ this' = lcWriter_ (telescope_module NONE)
       /\ (lc_events <$> lcWriter_ this') = Some []
       /\ write_cnt_ this' = 0
       /\ detector_names_to_id_ this' = empty.
Proof.
  split; [vm_compute; reflexivity|].
  apply (one_empty_record_per_event telescope_constructed (telescope_module NONE)
           [hit_event; stray_event]).
  vm_compute. reflexivity.
Defined.

(** X5 at an event numbered 2^31 + 5, which the event object gets as
    5 - 2^31. *)
Lemma late_event_number :
  exists locals this',
    run (telescope_module NONE) late_event = inr (locals, this')
    /\ evt_eventNumber (evt locals) = -2147483643
    /\ evt_runNumber (evt locals) = 1
    /\ evt_parameters (evt locals) = [("EventType", 2)]
    /\ - 2 ^ 31 <= evt_eventNumber (evt locals) < 2 ^ 31
    /\ (evt_eventNumber (evt locals) - number late_event) mod 2 ^ 32 = 0
    /\ (0 <= number late_event < 2 ^ 31 ->
        evt_eventNumber (evt locals) = number late_event).
Proof.
  eexists _, _. split; [vm_compute; reflexivity|]. split; [vm_compute; reflexivity|].
  eapply (event_number_is_cut_to_int (telescope_module NONE) late_event).
  vm_compute. reflexivity.
Defined.


(** X8 at the geometry without detectors: the file has the SiPlanes
    header with plane count 0 and no layer. *)
Lemma bare_geometry_file :
  exists this' env',
    finalize bare_module telescope_env = inr (this', env')
    /\ fs_files env' !! "telescope_gear.xml"
       = Some (gear_head bare_module ++ (write_bfield (geo_mgr_ bare_module)).1
                 ++ gear_detectors 0 ++ gear_tail)
    /\ reads (gear_detectors 0)
         [("name", str "SiPlanes"); ("geartype", str "SiPlanesParameters");
          ("type", str "TelescopeWithoutDUT"); ("number", [Num 0]); ("ID", [Num 0])]
    /\ (forall path, path <> "telescope_gear.xml" ->
                     fs_files env' !! path = fs_files telescope_env !! path).
Proof.
  eapply (one_layer_per_detector bare_module telescope_env).
  - reflexivity.
  - discriminate.
  - reflexivity.
Defined.

(** X9 at the second plane of the telescope. *)
Lemma ladder_of_plane1 :
  exists this' env' before after,
    finalize (telescope_module NONE) telescope_env = inr (this', env')
    /\ fs_files env' !! "telescope_gear.xml"
       = Some (before ++ write_ladder 0 plane1 ++ after)
    /\ reads (write_ladder 0 plane1)
         [("ID", [Num 0]);
          ("positionX", [Quantity 0 "mm"]); ("positionY", [Quantity 0 "mm"]);
          ("positionZ", [Quantity 50 "mm"]);
          ("rotationZY", [Quantity (-0) "deg"]);
          ("rotationZX", [Quantity (-0) "deg"]);
          ("rotationXY", [Quantity (-0) "deg"]);
          ("sizeX", [Quantity 6 "mm"]); ("sizeY", [Quantity 6 "mm"]);
          ("thickness", [Quantity 1 "mm"])].
Proof.
  exact (ladder_record_of_the_assembly
           (telescope_module NONE) telescope_env _ 1%nat plane1
           ltac:(reflexivity) ltac:(discriminate) ltac:(reflexivity) ltac:(reflexivity)).
Defined.

(** X10 at the second plane of the telescope. *)
Lemma grid_of_plane1 :
  exists this' env' before after,
    finalize (telescope_module NONE) telescope_env = inr (this', env')
    /\ fs_files env' !! "telescope_gear.xml"
       = Some (before ++ write_ladder 0 plane1 ++ write_sensitive 0 plane1 ++ after)
    /\ reads (write_sensitive 0 plane1)
         [("ID", [Num 0]);
          ("positionX", [Quantity 0 "mm"]); ("positionY", [Quantity 0 "mm"]);
          ("positionZ", [Quantity 50 "mm"]);
          ("npixelX", [Num 100]); ("npixelY", [Num 100]);
          ("pitchX", [Quantity 0.05 "mm"]); ("pitchY", [Quantity 0.05 "mm"])].
Proof.
  exact (sensitive_record_of_the_grid
           (telescope_module NONE) telescope_env _ 1%nat plane1
           ltac:(reflexivity) ltac:(discriminate) ltac:(reflexivity) ltac:(reflexivity)).
Defined.

(** X11 at the telescope, whose registry is empty before [finalize]:
    plane0 and plane1 are entered under id 0, plane7 is not entered. *)
Lemma telescope_registry_after_finalize :
  exists this' env',
    finalize (telescope_module NONE) telescope_env = inr (this', env')
    /\ detector_names_to_id_ this' !! "plane0" = Some 0
    /\ detector_names_to_id_ this' !! "plane1" = Some 0
    /\ detector_names_to_id_ this' !! "plane7" = None
    /\ forall name,
         detector_names_to_id_ this' !! name
         = match detector_names_to_id_ (telescope_module NONE) !! name with
           | Some id => Some id
           | None =>
               if decide (name ∈ map getName
                                   (getDetectors (geo_mgr_ (telescope_module NONE))))
               then Some 0 else None
           end.
Proof.
  eexists _, _. split; [vm_compute; reflexivity|].
  split; [vm_compute; reflexivity|].
  split; [vm_compute; reflexivity|].
  split; [vm_compute; reflexivity|].
  eapply (finalize_registers_detectors (telescope_module NONE) telescope_env).
  - vm_compute. reflexivity.
  - discriminate.
Defined.

(** X12 at the telescope: finalised twice, the second time on a disk of
    its own. *)
Lemma telescope_finalized_twice :
  exists this' env',
    finalize (telescope_module NONE) telescope_env = inr (this', env')
    /\ exists this'' env2',
         finalize this' telescope_env = inr (this'', env2')
         /\ fs_files env2' !! "telescope_gear.xml"
            = fs_files env' !! "telescope_gear.xml".
Proof.
  eexists _, _. split; [vm_compute; reflexivity|].
  apply (finalize_twice_same_file (telescope_module NONE) telescope_env _ _
           telescope_env).
  - vm_compute. reflexivity.
  - discriminate.
  - reflexivity.
Defined.

(** X13 at the telescope and two events: the count logged is 0. *)
Lemma telescope_lifecycle_end :
  new_PODIOWriterModule telescope_config telescope_messenger (telescope_geometry NONE)
  = inr telescope_constructed
  /\ initialize telescope_constructed = inr (telescope_module NONE)
  /\ exists this2,
       run_events (telescope_module NONE) [hit_event; stray_event] = inr this2
       /\ forall env this3 env',
            finalize this2 env = inr (this3, env') ->
            lcWriter_ this3
            = Some {| lc_file := Some "output.edm4allpix.root.slcio";
                      lc_run_headers :=
                        [{| hdr_runNumber := 1; hdr_detectorName := "telescope" |}];
                      lc_events := [];
                      lc_closed := true |}
            /\ telescope_config !! "detector_name" = Some (CfgString "telescope")
            /\ (rw_events <$> writer_ this3) = Some [[]; []]
            /\ exists rest,
                 log env'
                 = log env
                     ++ (STATUS, str "Wrote " ++ [Num 0] ++ str " events to file:"
                                   ++ endl ++ str "output.edm4allpix.root.slcio")
                          :: rest.
Proof.
  split; [vm_compute; reflexivity|]. split; [vm_compute; reflexivity|].
  exact (lifecycle_end_state telescope_config telescope_messenger
           (telescope_geometry NONE) telescope_constructed (telescope_module NONE)
           [hit_event; stray_event]
           ltac:(vm_compute; reflexivity) ltac:(vm_compute; reflexivity)).
Defined.

(** X7 at the telescope on a disk that cannot be written. *)
Lemma read_only_disk_error :
  finalize (telescope_module NONE) read_only_env
  = inl (ModuleError "Cannot write to GEAR geometry file").
Proof.
  apply (proj2 (geometry_file_error (telescope_module NONE) read_only_env
                  "Cannot write to GEAR geometry file")).
  repeat split.
  - eexists. reflexivity.
  - discriminate.
Defined.
